(** * cleverbot-free: a model of [index.js] and its specification

    The module [index.js] keeps its configuration, its session and two
    request counters in module-level variables, talks to the remote
    service through [axios], and retries failed exchanges.  This file
    embeds that module in Rocq:

    - the module variables become the record [machine], threaded through
      a state-and-exception monad [M];
    - the outside world ([axios.get], [axios.post], [Date.now],
      [Math.random]) is an oracle [world], indexed by the number of calls
      made so far; every request, sleep and console line is appended to a
      trace of [event]s;
    - the caller's [context] array lives in a store of arrays addressed by
      location, because [Array.prototype.reverse] works in place.

    Modelling conventions.  JavaScript strings are sequences of 16-bit
    code units; the model takes the strings whose code units fit in 8 bits
    (Rocq's [string]), on which [encodeURIComponent] is total.  JavaScript
    numbers are modelled by [Z]: the settings and counters of the module
    are integers, so fractional and non-finite doubles are left out.
    [md5] ([scripts/md5.js]) and [SUPPORTED_LANGUAGES]
    ([scripts/languages.js]) are parameters. *)

From Stdlib Require Import ZArith String Ascii List Bool Lia QArith Qround DecimalString.

From stdpp Require Import base gmap strings list.

Local Open Scope Z_scope.

(** ** JavaScript strings *)

Module JsString.

(** [s.substring(a, b)]: the code units at indices [min a b] up to, not
    including, [max a b], clipped to the length of [s]. *)
Definition substring (s : string) (a b : nat) : string :=
  String.substring (Nat.min a b) (Nat.max a b - Nat.min a b) s.

(** [s.split(sep)] for a one-character separator. *)
Fixpoint split (sep : ascii) (s : string) : list string :=
  match s with
  | EmptyString => [EmptyString]
  | String c s' =>
      if Ascii.eqb c sep then EmptyString :: split sep s'
      else match split sep s' with
           | x :: xs => String c x :: xs
           | [] => [String c EmptyString]
           end
  end.

(** Template-literal printing of numbers. *)
Definition of_nat (n : nat) : string := NilZero.string_of_uint (Nat.to_uint n).

Definition of_Z (z : Z) : string := NilZero.string_of_int (Z.to_int z).

(** Template-literal printing of a possibly undefined string. *)
Definition of_option (o : option string) : string :=
  match o with Some s => s | None => "undefined" end.

(** Truthiness of a possibly undefined string: [undefined] and the
    empty string are falsy. *)
Definition truthy (o : option string) : bool :=
  match o with
  | Some EmptyString | None => false
  | Some _ => true
  end.

Definition hex_digit (n : nat) : ascii :=
  if (n <? 10)%nat then ascii_of_nat (48 + n) else ascii_of_nat (55 + n).

Definition percent (byte : nat) : string :=
  String "%" (String (hex_digit (byte / 16)) (String (hex_digit (byte mod 16)) EmptyString)).

(** The characters [encodeURIComponent] leaves alone:
    [A-Z a-z 0-9 - _ . ! ~ * ' ( )]. *)
Definition unreserved (c : ascii) : bool :=
  let n := nat_of_ascii c in
  ((65 <=? n) && (n <=? 90) || (97 <=? n) && (n <=? 122) || (48 <=? n) && (n <=? 57)
   || (n =? 45) || (n =? 95) || (n =? 46) || (n =? 33) || (n =? 126) || (n =? 42)
   || (n =? 39) || (n =? 40) || (n =? 41))%nat.

(** One code unit: kept, or the percent-escaped bytes of its UTF-8
    encoding (one byte below 128, two bytes from 128 to 255). *)
Definition encode_char (c : ascii) : string :=
  let n := nat_of_ascii c in
  if unreserved c then String c EmptyString
  else if (n <? 128)%nat then percent n
  else percent (192 + n / 64) +:+ percent (128 + n mod 64).

Fixpoint encodeURIComponent (s : string) : string :=
  match s with
  | EmptyString => EmptyString
  | String c s' => encode_char c +:+ encodeURIComponent s'
  end.

(** [Buffer.byteLength(s)]: the length of the UTF-8 encoding. *)
Fixpoint byteLength (s : string) : Z :=
  match s with
  | EmptyString => 0
  | String c s' => (if (nat_of_ascii c <? 128)%nat then 1 else 2) + byteLength s'
  end.

Definition CR : ascii := ascii_of_nat 13.

Definition LF : ascii := ascii_of_nat 10.

End JsString.

(** ** Values, errors and the outside world *)

(** A JavaScript value as the configuration setter inspects it: only its
    [typeof] tag and, for the three primitive kinds it accepts, its
    content.  [VObject] stands for any nested object or array and
    [VFunction] for any function. *)
Inductive value :=
| VUndefined
| VNull
| VBoolean (b : bool)
| VNumber (z : Z)
| VString (s : string)
| VObject
| VFunction.

Definition typeof (v : value) : string :=
  match v with
  | VUndefined => "undefined"
  | VNull | VObject => "object"
  | VBoolean _ => "boolean"
  | VNumber _ => "number"
  | VString _ => "string"
  | VFunction => "function"
  end.

(** The argument of [CleverBot.config]: an object with its own
    properties, or any other value. *)
Inductive config_arg :=
| ArgObject (fields : gmap string value)
| ArgValue (v : value).

(** The HTTP response attached to an axios error. *)
Record response := { status : Z }.

(** A thrown error: its message and, for an axios error that carries
    one, the [response] property.  Errors made with [new Error(msg)] have
    no [response]. *)
Record error := { message : string; err_response : option response }.

Definition Error (msg : string) : error :=
  {| message := msg; err_response := None |}.

Definition TypeError (msg : string) : error :=
  {| message := msg; err_response := None |}.

(** [err.response && err.response.status === 403] *)
Definition is_forbidden (err : error) : bool :=
  match err_response err with
  | Some r => (status r =? 403)%Z
  | None => false
  end.

Inductive get_outcome :=
| GetOk (set_cookie : option (list string))
| GetFail (err : error).

Inductive post_outcome :=
| PostOk (data : string)
| PostFail (err : error).

(** The outside world: what the n-th call of each kind yields. *)
Record world := {
  w_now : nat -> Z;
  w_get : nat -> get_outcome;
  w_post : nat -> post_outcome;
  w_random : nat -> Q
}.

(** What the module does to the outside world, in order.  The URL of the
    cookie request is a constant but for its date stamp, which is
    represented by the clock value it was made from; the fixed [HEADERS]
    are left out of both requests. *)
Inductive event :=
| NetGet (stamp : Z) (cookie : string) (timeout : Z)
| NetPost (url payload : string) (content_length : Z) (cookie : string) (timeout : Z)
| Sleep (ms : Z)
| ConsoleDebug (label : string)
| ConsoleError (text : string)
| ConsoleLogAttempt (attempt : Z) (msg : string) (waitTime : Z).

(** ** The module variables *)

Record config_vars := {
  debug : bool;
  selectedLanguage : string;
  maxRetryAttempts : Z;
  retryBaseCooldown : Z;
  cookieExpirationTime : Z
}.

Record session_vars := {
  cookies : option (list string);
  lastCookieUpdate : Z;
  cbsId : option string;
  xai : option string;
  ns : Z;
  lastResponse : option string
}.

Record counter_vars := {
  successfulRequestsCount : Z;
  failedRequestsCount : Z
}.

(** How many calls of each kind have been made. *)
Record cursor := {
  c_now : nat;
  c_get : nat;
  c_post : nat;
  c_random : nat
}.

Definition loc := nat.

Record machine := {
  cfg : config_vars;
  ses : session_vars;
  cnt : counter_vars;
  heap : list (list string);
  cur : cursor;
  trace : list event
}.

Definition initial_config : config_vars :=
  {| debug := false; selectedLanguage := "en"; maxRetryAttempts := 3;
     retryBaseCooldown := 3000; cookieExpirationTime := 15768000 |}.

Definition initial_session : session_vars :=
  {| cookies := None; lastCookieUpdate := 0; cbsId := None; xai := None;
     ns := 0; lastResponse := None |}.

Definition initial_counters : counter_vars :=
  {| successfulRequestsCount := 0; failedRequestsCount := 0 |}.

Definition initial_cursor : cursor :=
  {| c_now := 0%nat; c_get := 0%nat; c_post := 0%nat; c_random := 0%nat |}.

(** The module right after it is loaded, next to a caller's store. *)
Definition initial (h : list (list string)) : machine :=
  {| cfg := initial_config; ses := initial_session; cnt := initial_counters;
     heap := h; cur := initial_cursor; trace := [] |}.

Definition with_cfg (f : config_vars -> config_vars) (m : machine) : machine :=
  {| cfg := f (cfg m); ses := ses m; cnt := cnt m; heap := heap m; cur := cur m; trace := trace m |}.

Definition with_ses (f : session_vars -> session_vars) (m : machine) : machine :=
  {| cfg := cfg m; ses := f (ses m); cnt := cnt m; heap := heap m; cur := cur m; trace := trace m |}.

Definition with_cnt (f : counter_vars -> counter_vars) (m : machine) : machine :=
  {| cfg := cfg m; ses := ses m; cnt := f (cnt m); heap := heap m; cur := cur m; trace := trace m |}.

Definition with_heap (f : list (list string) -> list (list string)) (m : machine) : machine :=
  {| cfg := cfg m; ses := ses m; cnt := cnt m; heap := f (heap m); cur := cur m; trace := trace m |}.

Definition with_cur (f : cursor -> cursor) (m : machine) : machine :=
  {| cfg := cfg m; ses := ses m; cnt := cnt m; heap := heap m; cur := f (cur m); trace := trace m |}.

Definition emit (e : event) (m : machine) : machine :=
  {| cfg := cfg m; ses := ses m; cnt := cnt m; heap := heap m; cur := cur m; trace := trace m ++ [e] |}.

Definition set_debug (b : bool) (c : config_vars) : config_vars :=
  {| debug := b; selectedLanguage := selectedLanguage c; maxRetryAttempts := maxRetryAttempts c;
     retryBaseCooldown := retryBaseCooldown c; cookieExpirationTime := cookieExpirationTime c |}.

Definition set_selectedLanguage (s : string) (c : config_vars) : config_vars :=
  {| debug := debug c; selectedLanguage := s; maxRetryAttempts := maxRetryAttempts c;
     retryBaseCooldown := retryBaseCooldown c; cookieExpirationTime := cookieExpirationTime c |}.

Definition set_maxRetryAttempts (z : Z) (c : config_vars) : config_vars :=
  {| debug := debug c; selectedLanguage := selectedLanguage c; maxRetryAttempts := z;
     retryBaseCooldown := retryBaseCooldown c; cookieExpirationTime := cookieExpirationTime c |}.

Definition set_retryBaseCooldown (z : Z) (c : config_vars) : config_vars :=
  {| debug := debug c; selectedLanguage := selectedLanguage c; maxRetryAttempts := maxRetryAttempts c;
     retryBaseCooldown := z; cookieExpirationTime := cookieExpirationTime c |}.

Definition set_cookieExpirationTime (z : Z) (c : config_vars) : config_vars :=
  {| debug := debug c; selectedLanguage := selectedLanguage c; maxRetryAttempts := maxRetryAttempts c;
     retryBaseCooldown := retryBaseCooldown c; cookieExpirationTime := z |}.

Definition set_cookies (v : option (list string)) (s : session_vars) : session_vars :=
  {| cookies := v; lastCookieUpdate := lastCookieUpdate s; cbsId := cbsId s; xai := xai s;
     ns := ns s; lastResponse := lastResponse s |}.

Definition set_lastCookieUpdate (v : Z) (s : session_vars) : session_vars :=
  {| cookies := cookies s; lastCookieUpdate := v; cbsId := cbsId s; xai := xai s;
     ns := ns s; lastResponse := lastResponse s |}.

Definition set_cbsId (v : option string) (s : session_vars) : session_vars :=
  {| cookies := cookies s; lastCookieUpdate := lastCookieUpdate s; cbsId := v; xai := xai s;
     ns := ns s; lastResponse := lastResponse s |}.

Definition set_xai (v : option string) (s : session_vars) : session_vars :=
  {| cookies := cookies s; lastCookieUpdate := lastCookieUpdate s; cbsId := cbsId s; xai := v;
     ns := ns s; lastResponse := lastResponse s |}.

Definition set_ns (v : Z) (s : session_vars) : session_vars :=
  {| cookies := cookies s; lastCookieUpdate := lastCookieUpdate s; cbsId := cbsId s; xai := xai s;
     ns := v; lastResponse := lastResponse s |}.

Definition set_lastResponse (v : option string) (s : session_vars) : session_vars :=
  {| cookies := cookies s; lastCookieUpdate := lastCookieUpdate s; cbsId := cbsId s; xai := xai s;
     ns := ns s; lastResponse := v |}.

Definition incr_successful (c : counter_vars) : counter_vars :=
  {| successfulRequestsCount := successfulRequestsCount c + 1;
     failedRequestsCount := failedRequestsCount c |}.

Definition incr_failed (c : counter_vars) : counter_vars :=
  {| successfulRequestsCount := successfulRequestsCount c;
     failedRequestsCount := failedRequestsCount c + 1 |}.

(** ** The monad of module code *)

(** A computation ends by returning, by throwing, or by running out of
    the fuel given to a loop. *)
Inductive outcome (A : Type) :=
| Return (a : A)
| Throw (err : error)
| OutOfFuel.

Arguments Return {A} a.

Arguments Throw {A} err.

Arguments OutOfFuel {A}.

Definition M (A : Type) : Type := machine -> outcome A * machine.

Definition ret {A} (a : A) : M A := fun m => (Return a, m).

Definition throw {A} (err : error) : M A := fun m => (Throw err, m).

Definition out_of_fuel {A} : M A := fun m => (OutOfFuel, m).

Definition bind {A B} (c : M A) (k : A -> M B) : M B :=
  fun m =>
    match c m with
    | (Return a, m') => k a m'
    | (Throw err, m') => (Throw err, m')
    | (OutOfFuel, m') => (OutOfFuel, m')
    end.

(** [try { c } catch (err) { handler }] *)
Definition try_catch {A} (c : M A) (handler : error -> M A) : M A :=
  fun m =>
    match c m with
    | (Throw err, m') => handler err m'
    | r => r
    end.

Notation "x <- c ;; k" := (bind c (fun x => k))
  (at level 100, c at next level, right associativity).

Notation "c ;;; k" := (bind c (fun _ => k))
  (at level 100, right associativity).

Definition read {A} (f : machine -> A) : M A := fun m => (Return (f m), m).

Definition update (f : machine -> machine) : M unit := fun m => (Return tt, f m).

Definition when (b : bool) (c : M unit) : M unit := if b then c else ret tt.

Definition console_debug (label : string) : M unit :=
  d <- read (fun m => debug (cfg m)) ;;
  when d (update (emit (ConsoleDebug label))).

(** ** The module code *)

Section CleverBot.

(** [scripts/md5.js] and [scripts/languages.js] are not part of the
    modelled file; both are parameters of the development.  The set of
    supported languages is given by its elements in insertion order. *)
Variable md5 : string -> string.

Variable SUPPORTED_LANGUAGES : list string.

Variable W : world.

(** *** Primitives of the host *)

Definition bump_now (c : cursor) : cursor :=
  {| c_now := S (c_now c); c_get := c_get c; c_post := c_post c; c_random := c_random c |}.

Definition bump_get (c : cursor) : cursor :=
  {| c_now := c_now c; c_get := S (c_get c); c_post := c_post c; c_random := c_random c |}.

Definition bump_post (c : cursor) : cursor :=
  {| c_now := c_now c; c_get := c_get c; c_post := S (c_post c); c_random := c_random c |}.

Definition bump_random (c : cursor) : cursor :=
  {| c_now := c_now c; c_get := c_get c; c_post := c_post c; c_random := S (c_random c) |}.

(** [Date.now()], also the clock read of [new Date()]. *)
Definition date_now : M Z :=
  fun m => (Return (w_now W (c_now (cur m))), with_cur bump_now m).

(** [Math.random()] *)
Definition math_random : M Q :=
  fun m => (Return (w_random W (c_random (cur m))), with_cur bump_random m).

(** [Math.floor(Math.random() * k)] *)
Definition random_below (k : Z) : M Z :=
  r <- math_random ;;
  ret (Qfloor (r * inject_Z k)).

(** [await axios.get(url, { timeout, headers: { ...HEADERS, Cookie } })]:
    resolves to the [set-cookie] header of the response, or rejects. *)
Definition axios_get (stamp : Z) (cookie : string) (timeout : Z) : M (option (list string)) :=
  fun m =>
    let m' := emit (NetGet stamp cookie timeout) (with_cur bump_get m) in
    match w_get W (c_get (cur m)) with
    | GetOk set_cookie => (Return set_cookie, m')
    | GetFail err => (Throw err, m')
    end.

(** [await axios.post(url, payload, { timeout, headers })]: resolves to
    the [data] of the response, or rejects. *)
Definition axios_post (url payload : string) (content_length : Z) (cookie : string)
    (timeout : Z) : M string :=
  fun m =>
    let m' := emit (NetPost url payload content_length cookie timeout) (with_cur bump_post m) in
    match w_post W (c_post (cur m)) with
    | PostOk data => (Return data, m')
    | PostFail err => (Throw err, m')
    end.

(** [await sleep(ms)] *)
Definition sleep (ms : Z) : M unit := update (emit (Sleep ms)).

(** [context.reverse()]: reverses the array at [l] in place and yields
    it.  A location that holds no array makes the call a type error. *)
Definition array_reverse (l : loc) : M (list string) :=
  fun m =>
    match heap m !! l with
    | Some a => (Return (rev a), with_heap (fun h => <[l := rev a]> h) m)
    | None => (Throw (TypeError "context.reverse is not a function"), m)
    end.

(** A new array, for a defaulted parameter. *)
Definition array_alloc (a : list string) : M loc :=
  fun m => (Return (length (heap m)), with_heap (fun h => h ++ [a]) m).

(** *** Build payloads *)

Definition buildCookieHeader : M string :=
  s <- read ses ;;
  cookieHeader <-
    match cookies s with
    | Some (c0 :: _) =>
        ret ("_cbsid=-1; " +:+ hd "" (JsString.split ";" c0) +:+ ";")
    | Some [] => throw (TypeError "Cannot read properties of undefined (reading 'split')")
    | None => ret ""
    end ;;
  let cookieHeader :=
    if JsString.truthy (xai s)
    then cookieHeader +:+ " XAI=" +:+ JsString.substring (JsString.of_option (xai s)) 0 3 +:+ ";"
    else cookieHeader in
  let cookieHeader :=
    if JsString.truthy (cbsId s)
    then cookieHeader +:+ " CBSID=" +:+ JsString.of_option (cbsId s) +:+ ";"
    else cookieHeader in
  let cookieHeader := cookieHeader +:+ " note=1;" in
  let cookieHeader :=
    if JsString.truthy (lastResponse s)
    then cookieHeader +:+ " CBALT=1~"
         +:+ JsString.encodeURIComponent (JsString.of_option (lastResponse s)) +:+ ";"
    else cookieHeader in
  console_debug "Cookie header:" ;;;
  ret cookieHeader.

(** The callback of [forEach], run over the array from index [i] on. *)
Fixpoint forEach_vText (a : list string) (i : nat) (payload : string) : string :=
  match a with
  | [] => payload
  | msg :: a' =>
      forEach_vText a' (S i)
        (payload +:+ "vText" +:+ JsString.of_nat i +:+ "="
                 +:+ JsString.encodeURIComponent msg +:+ "&")
  end.

Definition fixed_fields : string :=
  "cb_config_scripting=no&islearning=1&icognoid=wsf&icognocheck=".

Definition buildMainPayload (stimulus : string) (context : loc) (language : option string)
    : M string :=
  let payload := "stimulus=" +:+ JsString.encodeURIComponent stimulus +:+ "&" in
  reversed <- array_reverse context ;;
  let payload := forEach_vText reversed 0 payload in
  let payload :=
    payload +:+ (if JsString.truthy language
                 then "cb_config_language=" +:+ JsString.of_option language +:+ "&"
                 else "") +:+ fixed_fields in
  let payload := payload +:+ (payload +:+ md5 (JsString.substring payload 7 33)) in
  console_debug "Built payload:" ;;;
  ret payload.

(** *** Update cookies *)

Definition updateCookiesIfNeeded : M unit :=
  d <- read (fun m => debug (cfg m)) ;;
  c <- read (fun m => cookies (ses m)) ;;
  when d (update (emit (ConsoleDebug (if c is Some _ then "Cookies are still valid."
                                      else "Attempting to update cookies.")))) ;;;
  fresh <-
    (if c is Some _
     then now <- date_now ;;
          last <- read (fun m => lastCookieUpdate (ses m)) ;;
          expiry <- read (fun m => cookieExpirationTime (cfg m)) ;;
          ret (now - last <? expiry)%Z
     else ret false) ;;
  if (fresh : bool) then ret tt
  else
    try_catch
      (stamp <- date_now ;;
       set_cookie <- axios_get stamp "_cbsid=-1; note=1" 25000 ;;
       update (with_cnt incr_successful) ;;;
       update (with_ses (set_cookies set_cookie)) ;;;
       now <- date_now ;;
       update (with_ses (set_lastCookieUpdate now)) ;;;
       console_debug "Cookies have been updated:")
      (fun err =>
         update (with_cnt incr_failed) ;;;
         match err_response err with
         | Some r =>
             if (status r =? 403)%Z
             then throw (Error ("Error code " +:+ JsString.of_Z (status r)
                    +:+ ". Cookies cannot be updated because your IP address has been banned."))
             else throw (Error ("Failed to update cookies. " +:+ message err))
         | None => throw (Error ("Failed to update cookies. " +:+ message err))
         end).

(** *** Main Cleverbot function *)

Definition callCleverbotAPI (stimulus : string) (context : loc) (language : option string)
    : M (option string) :=
  console_debug "Calling Cleverbot API with:" ;;;
  updateCookiesIfNeeded ;;;
  payload <- buildMainPayload stimulus context language ;;
  update (with_ses (fun s => set_ns (ns s + 1) s)) ;;;
  try_catch
    (s <- read ses ;;
     let urlParams :=
       if JsString.truthy (cbsId s)
       then "out=" +:+ JsString.encodeURIComponent (JsString.of_option (lastResponse s))
            +:+ "&in=" +:+ JsString.encodeURIComponent stimulus
            +:+ "&bot=c&cbsid=" +:+ JsString.of_option (cbsId s)
            +:+ "&xai=" +:+ JsString.of_option (xai s)
            +:+ "&ns=" +:+ JsString.of_Z (ns s)
            +:+ "&al=&dl=&flag=&user=&mode=1&alt=0&reac=&emo=&sou=website&xed=&"
       else "" in
     let url :=
       "https://www.cleverbot.com/webservicemin?uc=UseOfficialCleverbotAPI&ncf=V2&"
       +:+ urlParams in
     console_debug "Preparing to call Cleverbot API:" ;;;
     cookieHeader <- buildCookieHeader ;;
     data <- axios_post url payload (JsString.byteLength payload) cookieHeader 20000 ;;
     match data with
     | EmptyString =>
         throw (Error ("The response from Cleverbot API is empty: " +:+ data))
     | _ =>
         update (with_cnt incr_successful) ;;;
         console_debug "Received response from Cleverbot:" ;;;
         let responseLines := JsString.split JsString.CR data in
         if (3 <=? length responseLines)%nat
         then
           let new_cbsId := nth 1 responseLines "" in
           update (with_ses (set_cbsId (Some new_cbsId))) ;;;
           update (with_ses (set_xai (Some (JsString.substring new_cbsId 0 3 +:+ ","
                                             +:+ nth 2 responseLines "")))) ;;;
           update (with_ses (set_lastResponse (Some (nth 0 responseLines "")))) ;;;
           reply <- read (fun m => lastResponse (ses m)) ;;
           ret reply
         else
           update (emit (ConsoleError "The response format from Cleverbot API is invalid!")) ;;;
           ret None
     end)
    (fun err =>
       update (with_cnt incr_failed) ;;;
       throw (Error ("Cleverbot API call failed: " +:+ message err))).

(** The [for] loop of [interact], from iteration [i] on.  [fuel] bounds
    the number of iterations the model follows; [interact] below gives
    the loop more than it can use. *)
Fixpoint interact_loop (fuel : nat) (i : Z) (incrementalDelay : Z)
    (stimulus : string) (context : loc) (language : option string) : M (option string) :=
  match fuel with
  | O => out_of_fuel
  | S fuel' =>
      limit <- read (fun m => maxRetryAttempts (cfg m)) ;;
      if (i <? limit)%Z
      then
        try_catch (callCleverbotAPI stimulus context language)
          (fun err =>
             if is_forbidden err
             then throw (Error ("Attempt " +:+ JsString.of_Z (i + 1)
                    +:+ " failed: Error code "
                    +:+ JsString.of_Z (from_option status 0 (err_response err))
                    +:+ ". The response could not be obtained because your IP address has been banned."))
             else
               base <- read (fun m => retryBaseCooldown (cfg m)) ;;
               jitter <- random_below 2000 ;;
               let waitTime := (base + jitter + 1000 + incrementalDelay)%Z in
               update (emit (ConsoleLogAttempt (i + 1) (message err) waitTime)) ;;;
               sleep waitTime ;;;
               growth <- random_below 3000 ;;
               interact_loop fuel' (i + 1) (incrementalDelay + (growth + 1000)) stimulus context
                 language)
      else
        throw (Error ("Failed to get a response from Cleverbot after "
                      +:+ JsString.of_Z limit +:+ " attempts."))
  end.

(** [CleverBot.interact(stimulus, context = [], language = selectedLanguage)]:
    an omitted ([None]) argument takes its default. *)
Definition interact (stimulus : string) (context : option loc) (language : option string)
    : M (option string) :=
  context <- match context with
             | Some l => ret l
             | None => array_alloc []
             end ;;
  language <- match language with
              | Some l => ret (Some l)
              | None => l <- read (fun m => selectedLanguage (cfg m)) ;; ret (Some l)
              end ;;
  limit <- read (fun m => maxRetryAttempts (cfg m)) ;;
  interact_loop (S (Z.to_nat limit)) 0 0 stimulus context language.

(** [CleverBot.config(config)] *)
Definition config (arg : config_arg) : M unit :=
  fields <-
    match arg with
    | ArgObject fields => ret fields
    | ArgValue v =>
        if negb (String.eqb (typeof v) "object") || (if v is VNull then true else false)
        then throw (Error "The `config` must be provided as an object.")
        else ret (∅ : gmap string value)
    end ;;
  match fields !! "debug" with
  | Some (VBoolean b) => update (with_cfg (set_debug b))
  | Some _ => throw (Error "Invalid value for `debug`. It must be a boolean.")
  | None => ret tt
  end ;;;
  match fields !! "defaultLanguage" with
  | Some v =>
      match v with
      | VString lang =>
          if existsb (String.eqb lang) SUPPORTED_LANGUAGES
          then update (with_cfg (set_selectedLanguage lang))
          else throw (Error ("Invalid value for `defaultLanguage`." +:+ String JsString.LF
                 ("Supported languages are: "
                  +:+ String.concat ", " SUPPORTED_LANGUAGES)))
      | _ => throw (Error ("Invalid value for `defaultLanguage`." +:+ String JsString.LF
                 ("Supported languages are: "
                  +:+ String.concat ", " SUPPORTED_LANGUAGES)))
      end
  | None => ret tt
  end ;;;
  match fields !! "maxRetryAttempts" with
  | Some (VNumber z) =>
      if (z <=? 0)%Z
      then throw (Error "Invalid value for `maxRetryAttempts`. It must be a positive number.")
      else update (with_cfg (set_maxRetryAttempts z))
  | Some _ => throw (Error "Invalid value for `maxRetryAttempts`. It must be a positive number.")
  | None => ret tt
  end ;;;
  match fields !! "retryBaseCooldown" with
  | Some (VNumber z) =>
      if (z <=? 0)%Z
      then throw (Error "Invalid value for `retryBaseCooldown`. It must be a positive number.")
      else update (with_cfg (set_retryBaseCooldown z))
  | Some _ => throw (Error "Invalid value for `retryBaseCooldown`. It must be a positive number.")
  | None => ret tt
  end ;;;
  match fields !! "cookieExpirationTime" with
  | Some (VNumber z) =>
      if (z <=? 0)%Z
      then throw (Error "Invalid value for `cookieExpirationTime`. It must be a positive number.")
      else update (with_cfg (set_cookieExpirationTime z))
  | Some _ => throw (Error "Invalid value for `cookieExpirationTime`. It must be a positive number.")
  | None => ret tt
  end.

(** [CleverBot.newSession()] *)
Definition newSession : M unit :=
  console_debug "newSession(): Successfully deleted session data" ;;;
  update (with_ses (set_cookies None)) ;;;
  update (with_ses (set_lastCookieUpdate 0)) ;;;
  update (with_ses (set_cbsId None)) ;;;
  update (with_ses (set_xai None)) ;;;
  update (with_ses (set_ns 0)) ;;;
  update (with_ses (set_lastResponse None)).

(** [CleverBot.getData()]: a snapshot of the module variables (the fixed
    [HEADERS] left out). *)
Definition getData : M (config_vars * session_vars * counter_vars) :=
  read (fun m => (cfg m, ses m, cnt m)).

End CleverBot.

(** ** Reading traces *)

(** The durations of the sleeps of a trace. *)
Fixpoint sleeps (t : list event) : list Z :=
  match t with
  | [] => []
  | Sleep ms :: t' => ms :: sleeps t'
  | _ :: t' => sleeps t'
  end.

(** The bodies of the exchange requests of a trace. *)
Fixpoint posts (t : list event) : list string :=
  match t with
  | [] => []
  | NetPost _ payload _ _ _ :: t' => payload :: posts t'
  | _ :: t' => posts t'
  end.

(** The number of network calls of a trace. *)
Fixpoint network_calls (t : list event) : nat :=
  match t with
  | [] => 0
  | NetGet _ _ _ :: t' => S (network_calls t')
  | NetPost _ _ _ _ _ :: t' => S (network_calls t')
  | _ :: t' => network_calls t'
  end.


(** ** The payload in the words of the specification *)

Definition stimulus_field (message : string) : string :=
  "stimulus=" +:+ JsString.encodeURIComponent message +:+ "&".

Definition vText_field (i : nat) (entry : string) : string :=
  "vText" +:+ JsString.of_nat i +:+ "=" +:+ JsString.encodeURIComponent entry +:+ "&".

(** Field [i] carries the entry at position [i] counted from the end of
    the history. *)
Definition vText_fields (history : list string) : string :=
  String.concat ""
    (map (fun i => vText_field i (nth (length history - 1 - i) history ""))
         (seq 0 (length history))).

Definition language_field (language : option string) : string :=
  if JsString.truthy language
  then "cb_config_language=" +:+ JsString.of_option language +:+ "&"
  else "".

Definition pre_checksum_payload (message : string) (history : list string)
    (language : option string) : string :=
  stimulus_field message +:+ vText_fields history +:+ language_field language
  +:+ fixed_fields.

(** The characters of [s] at the given indices, in order. *)
Fixpoint chars_at (s : string) (indices : list nat) : string :=
  match indices with
  | [] => ""
  | i :: rest =>
      match String.get i s with
      | Some c => String c (chars_at s rest)
      | None => chars_at s rest
      end
  end.

(** Characters [first] through [last], both included. *)
Definition characters (s : string) (first last : nat) : string :=
  chars_at s (seq first (S last - first)).

(** The body the specification describes. *)
Definition spec_body (md5 : string -> string) (message : string) (history : list string)
    (language : option string) : string :=
  let P := pre_checksum_payload message history language in
  P +:+ P +:+ md5 (characters P 7 32).

(** ** Reasoning about module code: definitions *)

(** Every run of [c] relates the machine before to the machine after. *)
Definition keeps {A : Type} (R : machine -> machine -> Prop) (c : M A) : Prop :=
  forall m, R m (snd (c m)).

(** Whatever [c] throws satisfies [P]. *)
Definition throws_only {A : Type} (P : error -> Prop) (c : M A) : Prop :=
  forall m e m', c m = (Throw e, m') -> P e.

(** [c] never runs out of fuel. *)
Definition terminates {A : Type} (c : M A) : Prop :=
  forall m, fst (c m) <> OutOfFuel.

(** ** Facts about one exchange: definitions *)

(** What an exchange leaves alone: the configuration, the random draws
    and the sleeps. *)
Definition same_policy (m m' : machine) : Prop :=
  cfg m' = cfg m /\ c_random (cur m') = c_random (cur m)
  /\ sleeps (trace m') = sleeps (trace m).

(** ** The retry loop, one attempt at a time: definitions *)

(** [Math.floor(Math.random() * k)] at the [n]-th draw of the world. *)
Definition uniformRandom (W : world) (k : Z) (n : nat) : Z :=
  Qfloor (w_random W n * inject_Z k).

(** The wait computed in the [catch] block of attempt [i + 1]. *)
Definition waitTime_of (W : world) (incrementalDelay : Z) (m1 : machine) : Z :=
  retryBaseCooldown (cfg m1) + uniformRandom W 2000 (c_random (cur m1)) + 1000
  + incrementalDelay.

(** The machine at the end of the [catch] block of a failed attempt that
    left the machine [m1]. *)
Definition after_failure (W : world) (i incrementalDelay : Z) (err : error) (m1 : machine)
    : machine :=
  with_cur bump_random
    (emit (Sleep (waitTime_of W incrementalDelay m1))
       (emit (ConsoleLogAttempt (i + 1) (message err) (waitTime_of W incrementalDelay m1))
          (with_cur bump_random m1))).

(** [incrementalDelay] at the end of that [catch] block. *)
Definition next_delay (W : world) (incrementalDelay : Z) (m1 : machine) : Z :=
  incrementalDelay + (uniformRandom W 3000 (S (c_random (cur m1))) + 1000).

Definition exhausted (limit : Z) : error :=
  Error ("Failed to get a response from Cleverbot after " +:+ JsString.of_Z limit
         +:+ " attempts.").

(** ** Anatomy of one exchange: definitions *)

(** The three session fields a reply fills in. *)
Definition session_ids (m : machine) : option string * option string * option string :=
  (cbsId (ses m), xai (ses m), lastResponse (ses m)).

(** What a well-formed reply assigns to them. *)
Definition ids_of_lines (lines : list string) : option string * option string * option string :=
  (Some (nth 1 lines ""),
   Some (JsString.substring (nth 1 lines "") 0 3 +:+ "," +:+ nth 2 lines ""),
   Some (nth 0 lines "")).

(** What the reply to the request of an exchange does: [m] is the
    machine before the exchange, [m'] after it and [r] its outcome. *)
Definition reply_effect (W : world) (m m' : machine) (r : outcome (option string)) : Prop :=
  match w_post W (c_post (cur m)) with
  | PostOk EmptyString | PostFail _ =>
      session_ids m' = session_ids m /\ exists e, r = Throw e
  | PostOk data =>
      let lines := JsString.split JsString.CR data in
      if (3 <=? length lines)%nat
      then r = Return (Some (nth 0 lines "")) /\ session_ids m' = ids_of_lines lines
      else r = Return None /\ session_ids m' = session_ids m
  end.

(** What the cookie refresh leaves alone. *)
Definition same_conversation (m m' : machine) : Prop :=
  heap m' = heap m /\ c_post (cur m') = c_post (cur m)
  /\ posts (trace m') = posts (trace m) /\ session_ids m' = session_ids m
  /\ ns (ses m') = ns (ses m) /\ cfg m' = cfg m.

(** ** Sample inputs *)

(** A stand-in digest for the examples: it shows the window it is given. *)
Definition sample_md5 (s : string) : string := "md5(" +:+ s +:+ ")".

Definition sample_languages : list string := ["en"; "pl"; "de"].

(** The error axios rejects with on a 403 reply. *)
Definition axios_403 : error :=
  {| message := "Request failed with status code 403";
     err_response := Some {| status := 403 |} |}.


Definition sample_cookie : list string := ["XVIS=TE1939AFFIAGAYQZ; path=/; HttpOnly"].

(** ** The configuration setter (C1): definitions *)

(** The keys [config] knows, in the order it checks them. *)
Definition recognized_keys : list string :=
  ["debug"; "defaultLanguage"; "maxRetryAttempts"; "retryBaseCooldown";
   "cookieExpirationTime"].

(** The values the check of each key lets through. *)
Definition acceptable (languages : list string) (key : string) (v : value) : bool :=
  if String.eqb key "debug" then
    match v with VBoolean _ => true | _ => false end
  else if String.eqb key "defaultLanguage" then
    match v with VString lang => existsb (String.eqb lang) languages | _ => false end
  else
    match v with VNumber z => (0 <? z)%Z | _ => false end.

(** [key] is present with a value its check refuses. *)
Definition invalid_in (languages : list string) (fields : gmap string value) (key : string)
    : bool :=
  match fields !! key with
  | Some v => negb (acceptable languages key v)
  | None => false
  end.

Definition first_invalid (languages : list string) (fields : gmap string value)
    : option string :=
  List.find (invalid_in languages fields) recognized_keys.

(** The module variable behind each key, as a value. *)
Definition setting (c : config_vars) (key : string) : value :=
  if String.eqb key "debug" then VBoolean (debug c)
  else if String.eqb key "defaultLanguage" then VString (selectedLanguage c)
  else if String.eqb key "maxRetryAttempts" then VNumber (maxRetryAttempts c)
  else if String.eqb key "retryBaseCooldown" then VNumber (retryBaseCooldown c)
  else VNumber (cookieExpirationTime c).

Fixpoint index_of (key : string) (keys : list string) : nat :=
  match keys with
  | [] => 0
  | k :: rest => if String.eqb key k then 0 else S (index_of key rest)
  end.

(** [hay.includes(needle)] *)
Fixpoint includes (needle hay : string) : bool :=
  String.prefix needle hay
  || match hay with
     | EmptyString => false
     | String _ hay' => includes needle hay'
     end.

(** [{debug: true, retryBaseCooldown: 4000, maxRetryAttempts: -1}] *)
Definition mixed_object : gmap string value :=
  {[ "debug" := VBoolean true; "retryBaseCooldown" := VNumber 4000;
     "maxRetryAttempts" := VNumber (-1) ]}.

(** [{debug: true, maxRetryAttempts: -1}] *)
Definition half_valid_object : gmap string value :=
  {[ "debug" := VBoolean true; "maxRetryAttempts" := VNumber (-1) ]}.

(** ** [interact] as a whole: definitions *)

(** The array [interact] works on, and the machine once a defaulted
    array has been made. *)
Definition interact_start (context : option loc) (m : machine) : loc * machine :=
  match context with
  | Some l => (l, m)
  | None => (length (heap m), with_heap (fun h => h ++ [[]]) m)
  end.

(** The language [interact] hands to each attempt. *)
Definition interact_language (language : option string) (m : machine) : option string :=
  Some (from_option id (selectedLanguage (cfg m)) language).

(** ** Ban detection (C2): definitions *)

Definition steady_clock (n : nat) : Z := 1700000000000 + 1000 * Z.of_nat n.

(** A world whose exchange requests are all answered 403. *)
Definition world_forbidden : world :=
  {| w_now := steady_clock;
     w_get := fun _ => GetOk (Some sample_cookie);
     w_post := fun _ => PostFail axios_403;
     w_random := fun _ => 1 # 2 |}.

(** [{maxRetryAttempts: 5}] *)
Definition five_attempts_object : gmap string value :=
  {[ "maxRetryAttempts" := VNumber 5 ]}.

(** The module after [config({maxRetryAttempts: 5})]. *)
Definition five_attempts : machine :=
  snd (config sample_languages (ArgObject five_attempts_object) (initial [[]])).

(** ** Backoff (C8): definitions *)





(** ** Malformed replies (C3): definitions *)


(** ** The session invariant (C7): definitions *)

(** What a caller can do. *)
Inductive operation :=
| OpInteract (stimulus : string) (context : option loc) (language : option string)
| OpConfig (arg : config_arg)
| OpNewSession
| OpGetData
| OpCaller (arrays : list (list string)).



Definition same_session (m m' : machine) : Prop := ses m' = ses m.


Section Operations.

Variable md5 : string -> string.

Variable SUPPORTED_LANGUAGES : list string.

Variable W : world.

(** The machine after an operation.  Between two calls the caller may
    also rewrite its own arrays ([OpCaller]). *)
Definition run_operation (op : operation) (m : machine) : machine :=
  match op with
  | OpInteract stimulus context language => snd (interact md5 W stimulus context language m)
  | OpConfig arg => snd (config SUPPORTED_LANGUAGES arg m)
  | OpNewSession => snd (newSession m)
  | OpGetData => snd (getData m)
  | OpCaller arrays => with_heap (fun _ => arrays) m
  end.

(** The machines a caller can bring about, starting from a freshly
    loaded module. *)
Inductive reachable : machine -> Prop :=
| reachable_initial (arrays : list (list string)) : reachable (initial arrays)
| reachable_step (op : operation) (m : machine) :
    reachable m -> reachable (run_operation op m).

End Operations.

(** A world in which the first reply is well formed. *)
Definition world_hello : world :=
  {| w_now := steady_clock;
     w_get := fun _ => GetOk (Some sample_cookie);
     w_post := fun _ => PostOk ("Hello." +:+ String JsString.CR
                                  ("WXEHBPUEID" +:+ String JsString.CR "42"));
     w_random := fun _ => 1 # 2 |}.

(** ** The shared history array (C10): definitions *)





(** ** Further properties: definitions *)

(** The settings of the module are all in range: the three numbers are
    positive and the default language is the initial one or a supported
    one. *)
Definition config_valid (languages : list string) (c : config_vars) : Prop :=
  0 < maxRetryAttempts c /\ 0 < retryBaseCooldown c /\ 0 < cookieExpirationTime c
  /\ (selectedLanguage c = "en" \/ existsb (String.eqb (selectedLanguage c)) languages = true).

Definition config_stays_valid (languages : list string) (m m' : machine) : Prop :=
  config_valid languages (cfg m) -> config_valid languages (cfg m').

(** [{debug: true, defaultLanguage: 'pl', retryBaseCooldown: 4000}] *)
Definition valid_object : gmap string value :=
  {[ "debug" := VBoolean true; "defaultLanguage" := VString "pl";
     "retryBaseCooldown" := VNumber 4000 ]}.

(** The two request counters and the exchange counter have not gone
    down from [m] to [m']. *)
Definition counters_grow (m m' : machine) : Prop :=
  successfulRequestsCount (cnt m) <= successfulRequestsCount (cnt m')
  /\ failedRequestsCount (cnt m) <= failedRequestsCount (cnt m')
  /\ ns (ses m) <= ns (ses m').

(** The cookie jar has to be fetched: there is none, or the clock
    reading the check makes is no longer inside the validity window. *)
Definition cookies_stale (W : world) (m : machine) : Prop :=
  match cookies (ses m) with
  | None => True
  | Some _ => cookieExpirationTime (cfg m) <= w_now W (c_now (cur m)) - lastCookieUpdate (ses m)
  end.

(** The message of the error a failed cookie request is turned into. *)
Definition cookie_failure_message (err : error) : string :=
  if is_forbidden err
  then "Error code 403. Cookies cannot be updated because your IP address has been banned."
  else "Failed to update cookies. " +:+ message err.

(** A world whose cookie request is refused with a 403. *)
Definition world_banned_cookies : world :=
  {| w_now := steady_clock;
     w_get := fun _ => GetFail axios_403;
     w_post := fun _ => PostFail axios_403;
     w_random := fun _ => 1 # 2 |}.

(** ** The books of one exchange: definitions *)

(** The URLs of the exchange requests of a trace. *)
Fixpoint post_urls (t : list event) : list string :=
  match t with
  | [] => []
  | NetPost url _ _ _ _ :: t' => url :: post_urls t'
  | _ :: t' => post_urls t'
  end.

(** The URL an exchange started on [m] asks for: the bare endpoint when
    [m] holds no session id, and otherwise the endpoint with the last
    reply, the message, the session id, the auth token and the exchange
    counter, which has been raised by then. *)
Definition request_url (stimulus : string) (m : machine) : string :=
  "https://www.cleverbot.com/webservicemin?uc=UseOfficialCleverbotAPI&ncf=V2&"
  +:+ (if JsString.truthy (cbsId (ses m))
       then "out=" +:+ JsString.encodeURIComponent (JsString.of_option (lastResponse (ses m)))
            +:+ "&in=" +:+ JsString.encodeURIComponent stimulus
            +:+ "&bot=c&cbsid=" +:+ JsString.of_option (cbsId (ses m))
            +:+ "&xai=" +:+ JsString.of_option (xai (ses m))
            +:+ "&ns=" +:+ JsString.of_Z (ns (ses m) + 1)
            +:+ "&al=&dl=&flag=&user=&mode=1&alt=0&reac=&emo=&sou=website&xed=&"
       else "").

(** What the reply to the request of an exchange makes of it. *)
Definition reply_outcome (W : world) (m : machine) (r : outcome (option string)) : Prop :=
  match w_post W (c_post (cur m)) with
  | PostFail cause => r = Throw (Error ("Cleverbot API call failed: " +:+ message cause))
  | PostOk EmptyString =>
      r = Throw (Error "Cleverbot API call failed: The response from Cleverbot API is empty: ")
  | PostOk data =>
      r = Return (if (3 <=? length (JsString.split JsString.CR data))%nat
                  then Some (nth 0 (JsString.split JsString.CR data) "")
                  else None)
  end.

(** How far a run moved the two request counters. *)
Definition succeeded (m m' : machine) : Z :=
  successfulRequestsCount (cnt m') - successfulRequestsCount (cnt m).

Definition failed (m m' : machine) : Z :=
  failedRequestsCount (cnt m') - failedRequestsCount (cnt m).

(** The network requests a run made. *)
Definition requested (m m' : machine) : Z :=
  Z.of_nat (network_calls (trace m')) - Z.of_nat (network_calls (trace m)).

(** What logging and payload building leave alone. *)
Definition quiet (m m' : machine) : Prop :=
  cfg m' = cfg m /\ ses m' = ses m /\ cur m' = cur m
  /\ succeeded m m' = 0 /\ failed m m' = 0 /\ requested m m' = 0
  /\ post_urls (trace m') = post_urls (trace m).

(** The books of the cookie refresh. *)
Definition refresh_books (m : machine) (r : outcome unit) (m' : machine) : Prop :=
  heap m' = heap m /\ cfg m' = cfg m /\ c_post (cur m') = c_post (cur m)
  /\ post_urls (trace m') = post_urls (trace m)
  /\ cbsId (ses m') = cbsId (ses m) /\ xai (ses m') = xai (ses m)
  /\ lastResponse (ses m') = lastResponse (ses m) /\ ns (ses m') = ns (ses m)
  /\ (c_get (cur m') <= S (c_get (cur m)))%nat
  /\ (cookies (ses m) = None -> c_get (cur m') = S (c_get (cur m)))
  /\ ((r = Return tt /\ failed m m' = 0 /\ 0 <= succeeded m m' <= 1
       /\ requested m m' = succeeded m m')
      \/ ((exists e, r = Throw e) /\ failed m m' = 1 /\ succeeded m m' = 0
          /\ requested m m' = 1)).

(** The books of the request stage, from the machine [m] the payload
    builder leaves. *)
Definition request_books (W : world) (stimulus : string) (m : machine)
    (r : outcome (option string)) (m' : machine) : Prop :=
  c_get (cur m') = c_get (cur m)
  /\ ((c_post (cur m') = c_post (cur m) /\ post_urls (trace m') = post_urls (trace m)
       /\ requested m m' = 0 /\ succeeded m m' = 0 /\ failed m m' = 1
       /\ exists e, r = Throw e)
      \/ (c_post (cur m') = S (c_post (cur m))
          /\ post_urls (trace m') = post_urls (trace m) ++ [request_url stimulus m]
          /\ requested m m' = 1 /\ reply_outcome W m r
          /\ (((exists v, r = Return v) /\ succeeded m m' = 1 /\ failed m m' = 0)
              \/ ((exists e, r = Throw e) /\ succeeded m m' = 0 /\ failed m m' = 1)))).

(** The books of one exchange, from [m] to [m'] with outcome [r]: how
    far the counters moved, how many requests were made, and what was
    asked and answered. *)
Definition exchange_ledger (W : world) (stimulus : string)
    (m : machine) (r : outcome (option string)) (m' : machine) : Prop :=
  (0 <= succeeded m m' <= 2 /\ 0 <= failed m m' <= 1)
  /\ 0 <= requested m m' <= 2
  /\ requested m m' <= succeeded m m' + failed m m'
  /\ (forall v, r = Return v -> failed m m' = 0 /\ 1 <= succeeded m m')
  /\ (c_get (cur m') <= S (c_get (cur m)))%nat
  /\ (cookies (ses m) = None -> c_get (cur m') = S (c_get (cur m)))
  /\ ((c_post (cur m') = c_post (cur m) /\ post_urls (trace m') = post_urls (trace m)
       /\ exists e, r = Throw e)
      \/ (c_post (cur m') = S (c_post (cur m))
          /\ post_urls (trace m') = post_urls (trace m) ++ [request_url stimulus m]
          /\ reply_outcome W m r)).

(** The books of a call of [interact] that starts attempt [i + 1] on
    [m] and ends on [m'] with outcome [r]. *)
Definition interact_books (context : loc) (i : Z) (m : machine)
    (r : outcome (option string)) (m' : machine) : Prop :=
  let left_over := Z.max 0 (maxRetryAttempts (cfg m) - i) in
  0 <= succeeded m m'
  /\ 0 <= failed m m' <= left_over
  /\ 0 <= requested m m' <= 2 * left_over
  /\ requested m m' <= succeeded m m' + failed m m'
  /\ (length (post_urls (trace m')) <= length (post_urls (trace m)) + Z.to_nat left_over)%nat
  /\ (forall v, r = Return v -> 1 <= succeeded m m')
  /\ (heap m !! context <> None -> forall e, r = Throw e -> failed m m' = left_over).


(** Every array but the one at [context] is where and what it was. *)
Definition other_arrays_kept (context : loc) (m m' : machine) : Prop :=
  length (heap m') = length (heap m)
  /\ forall l, l <> context -> heap m' !! l = heap m !! l.

(** ** Fields and cookies: definitions *)

(** [s] holds no [sep]. *)
Fixpoint lacks (sep : ascii) (s : string) : bool :=
  match s with
  | EmptyString => true
  | String c s' => negb (Ascii.eqb c sep) && lacks sep s'
  end.

(** The [vText] fields of the array [a], numbered from [i], each
    without its closing separator. *)
Fixpoint vText_list (a : list string) (i : nat) : list string :=
  match a with
  | [] => []
  | msg :: a' =>
      ("vText" +:+ JsString.of_nat i +:+ "=" +:+ JsString.encodeURIComponent msg)
      :: vText_list a' (S i)
  end.

(** The fields of the form body, for the array as the builder walks it. *)
Definition payload_fields (stimulus : string) (reversed : list string)
    (language : option string) : list string :=
  ("stimulus=" +:+ JsString.encodeURIComponent stimulus)
  :: vText_list reversed 0
  ++ (if JsString.truthy language
      then ["cb_config_language=" +:+ JsString.of_option language] else [])
  ++ ["cb_config_scripting=no"; "islearning=1"; "icognoid=wsf"; "icognocheck="].

(** The part of the cookie header that comes from the session. *)
Definition session_cookies (s : session_vars) : string :=
  (if JsString.truthy (xai s)
   then " XAI=" +:+ JsString.substring (JsString.of_option (xai s)) 0 3 +:+ ";" else "")
  +:+ (if JsString.truthy (cbsId s)
       then " CBSID=" +:+ JsString.of_option (cbsId s) +:+ ";" else "")
  +:+ " note=1;"
  +:+ (if JsString.truthy (lastResponse s)
       then " CBALT=1~" +:+ JsString.encodeURIComponent (JsString.of_option (lastResponse s))
            +:+ ";"
       else "").

Definition bare_endpoint : string :=
  "https://www.cleverbot.com/webservicemin?uc=UseOfficialCleverbotAPI&ncf=V2&".

(** A cookie as servers send it: a pair followed by attributes. *)
Definition sample_set_cookie : string := "XVIS=TE1939AFFIAGAYQZA; Path=/; HttpOnly".

(** ** Conversations across calls: definitions *)

(** The URL that continues a conversation: the last reply, the new
    message, the session id, the auth token and the exchange counter. *)
Definition continuation_url (reply message id token : string) (count : Z) : string :=
  bare_endpoint
  +:+ "out=" +:+ JsString.encodeURIComponent reply
  +:+ "&in=" +:+ JsString.encodeURIComponent message
  +:+ "&bot=c&cbsid=" +:+ id
  +:+ "&xai=" +:+ token
  +:+ "&ns=" +:+ JsString.of_Z count
  +:+ "&al=&dl=&flag=&user=&mode=1&alt=0&reac=&emo=&sou=website&xed=&".

(** ** Debug output: definitions *)

Definition is_debug_line (e : event) : bool :=
  match e with
  | ConsoleDebug _ => true
  | _ => false
  end.

(** The trace without the lines of [console.debug]. *)
Definition without_debug (t : list event) : list event :=
  List.filter (fun e => negb (is_debug_line e)) t.

(** Two machines that differ at most in the [debug] flag and in the
    debug lines written so far. *)
Definition same_but_debug (m1 m2 : machine) : Prop :=
  selectedLanguage (cfg m1) = selectedLanguage (cfg m2)
  /\ maxRetryAttempts (cfg m1) = maxRetryAttempts (cfg m2)
  /\ retryBaseCooldown (cfg m1) = retryBaseCooldown (cfg m2)
  /\ cookieExpirationTime (cfg m1) = cookieExpirationTime (cfg m2)
  /\ ses m1 = ses m2 /\ cnt m1 = cnt m2 /\ heap m1 = heap m2 /\ cur m1 = cur m2
  /\ without_debug (trace m1) = without_debug (trace m2).

(** Run on two such machines, [c1] and [c2] end alike: same outcome, and
    machines that again differ at most in debug flag and debug lines. *)
Definition related {A : Type} (c1 c2 : M A) : Prop :=
  forall m1 m2, same_but_debug m1 m2 ->
    fst (c1 m1) = fst (c2 m2) /\ same_but_debug (snd (c1 m1)) (snd (c2 m2)).

(** * Properties *)

(** ** The string functions on examples *)

Example encode_space : JsString.encodeURIComponent "a b&c" = "a%20b%26c".
Proof. reflexivity. Qed.

Example split_two : JsString.split ";" "a=1; path=/" = ["a=1"; " path=/"].
Proof. reflexivity. Qed.

Example split_empty : JsString.split ";" "" = [""].
Proof. reflexivity. Qed.

Example print_numbers : (JsString.of_nat 0, JsString.of_nat 12, JsString.of_Z (-5)) = ("0", "12", "-5").
Proof. reflexivity. Qed.

(** ** Strings *)

(** [String.append] is kept folded by [simpl]; these are its equations. *)
Lemma append_String (x : ascii) (a b : string) : String x a +:+ b = String x (a +:+ b).
Proof. reflexivity. Qed.

Lemma append_empty_l (b : string) : "" +:+ b = b.
Proof. reflexivity. Qed.

Lemma append_assoc (a b c : string) : (a +:+ b) +:+ c = a +:+ (b +:+ c).
Proof. induction a as [|x a IH]; [reflexivity|]. rewrite !append_String. now rewrite IH. Qed.

Lemma append_empty_r (a : string) : a +:+ "" = a.
Proof. induction a as [|x a IH]; [reflexivity|]. rewrite append_String. now rewrite IH. Qed.

Lemma length_append (a b : string) :
  String.length (a +:+ b) = (String.length a + String.length b)%nat.
Proof. induction a as [|x a IH]; [reflexivity|]. rewrite append_String. cbn. now rewrite IH. Qed.

Lemma chars_at_empty (l : list nat) : chars_at "" l = "".
Proof. induction l as [|i l IH]; [reflexivity|]. cbn. destruct i; exact IH. Qed.

Lemma chars_at_shift (c : ascii) (s : string) (l : list nat) :
  chars_at (String c s) (map S l) = chars_at s l.
Proof. induction l as [|i l IH]; [reflexivity|]. cbn. now rewrite IH. Qed.

Lemma substring_chars_at (s : string) :
  forall n m, String.substring n m s = chars_at s (seq n m).
Proof.
  induction s as [|c s IH]; intros n m.
  - rewrite chars_at_empty. destruct n, m; reflexivity.
  - destruct n as [|n].
    + destruct m as [|m]; [reflexivity|].
      cbn. rewrite <- seq_shift, chars_at_shift. now rewrite IH.
    + cbn [String.substring]. rewrite <- seq_shift, chars_at_shift. apply IH.
Qed.

Lemma get_lt (s : string) (i : nat) :
  (i < String.length s)%nat -> exists c, String.get i s = Some c.
Proof.
  revert i. induction s as [|c s IH]; intros i Hi; cbn in *; [lia|].
  destruct i as [|i]; [eauto|]. apply IH. lia.
Qed.

Lemma length_chars_at (s : string) (l : list nat) :
  Forall (fun i => (i < String.length s)%nat) l ->
  String.length (chars_at s l) = length l.
Proof.
  induction 1 as [|i l Hi _ IH]; [reflexivity|].
  cbn [chars_at]. destruct (get_lt s i Hi) as [c ->]. cbn. now rewrite IH.
Qed.

(** [p.substring(7, 33)] is characters 7 through 32 of [p]. *)
Lemma substring_7_33 (p : string) : JsString.substring p 7 33 = characters p 7 32.
Proof. unfold JsString.substring, characters. cbn [Nat.min Nat.max Nat.sub]. apply substring_chars_at. Qed.

(** ** The [forEach] loop against the indexed fields *)

Lemma concat_cons (x : string) (l : list string) :
  String.concat "" (x :: l) = x +:+ String.concat "" l.
Proof. destruct l as [|y l]; cbn; [now rewrite append_empty_r|reflexivity]. Qed.

Lemma forEach_vText_app (a : list string) :
  forall i payload,
    forEach_vText a i payload
    = payload +:+ String.concat "" (map (fun k => vText_field (i + k) (nth k a "")) (seq 0 (length a))).
Proof.
  induction a as [|msg a IH]; intros i payload.
  - cbn. now rewrite append_empty_r.
  - cbn [forEach_vText length seq map]. rewrite IH, concat_cons.
    rewrite <- seq_shift, map_map, Nat.add_0_r. cbn [nth].
    rewrite (map_ext (fun k => vText_field (i + S k) (nth k a ""))
                     (fun k => vText_field (S i + k) (nth k a ""))).
    + unfold vText_field at 2. now rewrite !append_assoc.
    + intros k. now rewrite Nat.add_succ_r.
Qed.

Lemma forEach_vText_rev (history : list string) (payload : string) :
  forEach_vText (rev history) 0 payload = payload +:+ vText_fields history.
Proof.
  rewrite forEach_vText_app. unfold vText_fields. rewrite length_rev. f_equal. f_equal.
  apply map_ext_in. intros k Hk. apply in_seq in Hk. cbn [Nat.add].
  f_equal. rewrite rev_nth by lia. f_equal. lia.
Qed.

(** ** Reasoning about module code *)

Section Logic.

Context {A : Type}.

Lemma keeps_ret R `{!Reflexive R} (a : A) : keeps R (ret a).
Proof. intros m. apply reflexivity. Qed.

Lemma keeps_throw R `{!Reflexive R} (e : error) : keeps R (throw e : M A).
Proof. intros m. apply reflexivity. Qed.

Lemma keeps_read R `{!Reflexive R} (f : machine -> A) : keeps R (read f).
Proof. intros m. apply reflexivity. Qed.

Lemma keeps_try_catch R `{!Transitive R} (c : M A) (h : error -> M A) :
  keeps R c -> (forall e, keeps R (h e)) -> keeps R (try_catch c h).
Proof.
  intros Hc Hh m. unfold try_catch. specialize (Hc m).
  destruct (c m) as [[a|e|] m1]; cbn in *; try exact Hc.
  etrans; [exact Hc|apply Hh].
Qed.

Lemma throws_only_ret P (a : A) : throws_only P (ret a).
Proof. intros m e m' H. discriminate H. Qed.

Lemma throws_only_read P (f : machine -> A) : throws_only P (read f).
Proof. intros m e m' H. discriminate H. Qed.

Lemma throws_only_throw (P : error -> Prop) (e : error) : P e -> throws_only P (throw e : M A).
Proof. intros HP m e' m' H. injection H as <- _. exact HP. Qed.

Lemma throws_only_try_catch P (c : M A) (h : error -> M A) :
  (forall e, throws_only P (h e)) -> throws_only P (try_catch c h).
Proof.
  intros Hh m e m' H. unfold try_catch in H.
  destruct (c m) as [[a|e0|] m1]; try discriminate H.
  exact (Hh e0 m1 e m' H).
Qed.

Lemma terminates_ret (a : A) : terminates (ret a).
Proof. intros m. discriminate. Qed.

Lemma terminates_throw (e : error) : terminates (throw e : M A).
Proof. intros m. discriminate. Qed.

Lemma terminates_read (f : machine -> A) : terminates (read f).
Proof. intros m. discriminate. Qed.

Lemma terminates_try_catch (c : M A) (h : error -> M A) :
  terminates c -> (forall e, terminates (h e)) -> terminates (try_catch c h).
Proof.
  intros Hc Hh m. unfold try_catch. specialize (Hc m).
  destruct (c m) as [[a|e|] m1]; cbn in *; try exact Hc. exact (Hh e m1).
Qed.

End Logic.

Lemma keeps_bind {A B} R `{!Transitive R} (c : M A) (k : A -> M B) :
  keeps R c -> (forall a, keeps R (k a)) -> keeps R (bind c k).
Proof.
  intros Hc Hk m. unfold bind. specialize (Hc m).
  destruct (c m) as [[a|e|] m1]; cbn in *; try exact Hc.
  etrans; [exact Hc|apply Hk].
Qed.

Lemma keeps_update R (f : machine -> machine) : (forall m, R m (f m)) -> keeps R (update f).
Proof. intros H m. apply H. Qed.

Lemma keeps_when R `{!Reflexive R} (b : bool) (c : M unit) : keeps R c -> keeps R (when b c).
Proof. intros H. destruct b; [exact H|]. now apply keeps_ret. Qed.

Lemma throws_only_bind {A B} P (c : M A) (k : A -> M B) :
  throws_only P c -> (forall a, throws_only P (k a)) -> throws_only P (bind c k).
Proof.
  intros Hc Hk m e m' H. unfold bind in H.
  destruct (c m) as [[a|e0|] m1] eqn:E; try discriminate H.
  - exact (Hk a m1 e m' H).
  - injection H as <- _. exact (Hc m e0 m1 E).
Qed.

Lemma throws_only_update P (f : machine -> machine) : throws_only P (update f).
Proof. intros m e m' H. discriminate H. Qed.

Lemma throws_only_when P (b : bool) (c : M unit) : throws_only P c -> throws_only P (when b c).
Proof. intros H. destruct b; [exact H|]. apply throws_only_ret. Qed.

Lemma terminates_bind {A B} (c : M A) (k : A -> M B) :
  terminates c -> (forall a, terminates (k a)) -> terminates (bind c k).
Proof.
  intros Hc Hk m. unfold bind. specialize (Hc m).
  destruct (c m) as [[a|e|] m1]; cbn in *; [exact (Hk a m1)|discriminate|congruence].
Qed.

Lemma terminates_update (f : machine -> machine) : terminates (update f).
Proof. intros m. discriminate. Qed.

Lemma terminates_when (b : bool) (c : M unit) : terminates c -> terminates (when b c).
Proof. intros H. destruct b; [exact H|]. apply terminates_ret. Qed.

(** Walks through the structure of a piece of module code, leaving the
    primitives and the state updates to the caller. *)
Ltac walk :=
  repeat match goal with
    | |- keeps _ (bind _ _) => apply keeps_bind; [typeclasses eauto| |intros ?]
    | |- keeps _ (try_catch _ _) => apply keeps_try_catch; [typeclasses eauto| |intros ?]
    | |- keeps _ (ret _) => apply keeps_ret; typeclasses eauto
    | |- keeps _ (throw _) => apply keeps_throw; typeclasses eauto
    | |- keeps _ (read _) => apply keeps_read; typeclasses eauto
    | |- keeps _ (when _ _) => apply keeps_when; [typeclasses eauto|]
    | |- keeps _ (update _) => apply keeps_update; intros ?
    | |- throws_only _ (bind _ _) => apply throws_only_bind; [|intros ?]
    | |- throws_only _ (try_catch _ _) => apply throws_only_try_catch; intros ?
    | |- throws_only _ (ret _) => apply throws_only_ret
    | |- throws_only _ (read _) => apply throws_only_read
    | |- throws_only _ (update _) => apply throws_only_update
    | |- throws_only _ (when _ _) => apply throws_only_when
    | |- throws_only _ (throw _) => apply throws_only_throw
    | |- terminates (bind _ _) => apply terminates_bind; [|intros ?]
    | |- terminates (try_catch _ _) => apply terminates_try_catch; [|intros ?]
    | |- terminates (ret _) => apply terminates_ret
    | |- terminates (throw _) => apply terminates_throw
    | |- terminates (read _) => apply terminates_read
    | |- terminates (update _) => apply terminates_update
    | |- terminates (when _ _) => apply terminates_when
    | |- keeps _ (match ?x with _ => _ end) => destruct x
    | |- throws_only _ (match ?x with _ => _ end) => destruct x
    | |- terminates (match ?x with _ => _ end) => destruct x
    end.

Lemma sleeps_app (t u : list event) : sleeps (t ++ u) = sleeps t ++ sleeps u.
Proof.
  induction t as [|e t IH]; [reflexivity|].
  destruct e; cbn; rewrite IH; reflexivity.
Qed.

Lemma posts_app (t u : list event) : posts (t ++ u) = posts t ++ posts u.
Proof.
  induction t as [|e t IH]; [reflexivity|].
  destruct e; cbn; rewrite IH; reflexivity.
Qed.

Lemma network_calls_app (t u : list event) :
  network_calls (t ++ u) = (network_calls t + network_calls u)%nat.
Proof.
  induction t as [|e t IH]; [reflexivity|].
  destruct e; cbn; rewrite IH; reflexivity.
Qed.

(** ** Facts about one exchange *)

#[local] Instance same_policy_refl : Reflexive same_policy.
Proof. intros m. repeat split. Qed.

#[local] Instance same_policy_trans : Transitive same_policy.
Proof.
  intros m1 m2 m3 (H1 & H2 & H3) (K1 & K2 & K3).
  repeat split; congruence.
Qed.

Ltac unfold_code :=
  unfold callCleverbotAPI, updateCookiesIfNeeded, buildMainPayload, buildCookieHeader,
    console_debug, random_below, sleep; cbv zeta.

Ltac prim_keeps :=
  match goal with
  | |- keeps _ _ =>
      let m := fresh "m" in
      intros m; unfold date_now, math_random, axios_get, axios_post, array_reverse, array_alloc;
      repeat match goal with
        | |- context [match ?x with _ => _ end] => destruct x
        end
  | _ => idtac
  end;
  repeat split; cbn; rewrite ?sleeps_app, ?posts_app; cbn; rewrite ?app_nil_r; try reflexivity.

Ltac prim_throws :=
  cbv beta;
  lazymatch goal with
  | |- throws_only _ _ =>
      let m := fresh "m" in
      let H := fresh "H" in
      intros m ? ? H;
      unfold date_now, math_random, axios_get, axios_post, array_reverse, array_alloc in H;
      repeat match type of H with
        | context [match ?x with _ => _ end] => destruct x
        end;
      first [discriminate H | injection H as <- _; reflexivity]
  | |- err_response _ = None => reflexivity
  end.

Ltac prim_terminates :=
  lazymatch goal with
  | |- terminates _ =>
      let m := fresh "m" in
      intros m; unfold date_now, math_random, axios_get, axios_post, array_reverse, array_alloc;
      repeat match goal with
        | |- context [match ?x with _ => _ end] => destruct x
        end;
      cbn; discriminate
  end.

Section Exchange.

Variable md5 : string -> string.

Variable W : world.

Variables (stimulus : string) (context : loc) (language : option string).

Lemma callCleverbotAPI_same_policy :
  keeps same_policy (callCleverbotAPI md5 W stimulus context language).
Proof. unfold_code. walk; prim_keeps. Qed.

(** Every error that leaves an exchange was made with [new Error] or is
    a type error: none carries a [response]. *)
Lemma callCleverbotAPI_throws_plain :
  throws_only (fun e => err_response e = None)
    (callCleverbotAPI md5 W stimulus context language).
Proof. unfold_code. walk; prim_throws. Qed.

Lemma callCleverbotAPI_terminates :
  terminates (callCleverbotAPI md5 W stimulus context language).
Proof. unfold_code. walk; prim_terminates. Qed.

End Exchange.

(** ** The retry loop, one attempt at a time *)

Section Loop.

Variable md5 : string -> string.

Variable W : world.

Variables (stimulus : string) (context : loc) (language : option string).

Local Abbreviation attempt := (callCleverbotAPI md5 W stimulus context language).

Local Abbreviation loop := (fun fuel i d => interact_loop md5 W fuel i d stimulus context language).

Lemma interact_loop_exit (fuel : nat) (i d : Z) (m : machine) :
  maxRetryAttempts (cfg m) <= i ->
  loop (S fuel) i d m = (Throw (exhausted (maxRetryAttempts (cfg m))), m).
Proof.
  intros Hi. cbn beta. cbn [interact_loop]. unfold bind at 1, read at 1.
  destruct (Z.ltb_spec i (maxRetryAttempts (cfg m))) as [Hlt|_]; [lia|reflexivity].
Qed.

(** One iteration: a returning attempt ends the loop with its result; a
    throwing one is always retried, because its error carries no
    [response]. *)
Lemma interact_loop_step (fuel : nat) (i d : Z) (m : machine) :
  i < maxRetryAttempts (cfg m) ->
  loop (S fuel) i d m
  = match attempt m with
    | (Return r, m1) => (Return r, m1)
    | (Throw err, m1) =>
        loop fuel (i + 1) (next_delay W d m1) (after_failure W i d err m1)
    | (OutOfFuel, m1) => (OutOfFuel, m1)
    end.
Proof.
  intros Hi. cbn beta. cbn [interact_loop]. unfold bind at 1, read at 1.
  destruct (Z.ltb_spec i (maxRetryAttempts (cfg m))) as [_|Hge]; [|lia].
  unfold try_catch.
  destruct (attempt m) as [[r|err|] m1] eqn:E; try reflexivity.
  assert (Hplain : err_response err = None)
    by exact (callCleverbotAPI_throws_plain md5 W stimulus context language m err m1 E).
  unfold is_forbidden. rewrite Hplain. reflexivity.
Qed.

Lemma after_failure_cfg (i d : Z) (err : error) (m1 : machine) :
  cfg (after_failure W i d err m1) = cfg m1.
Proof. reflexivity. Qed.

(** Induction over the attempts of the loop. *)
Lemma interact_loop_ind (P : Z -> Z -> machine -> outcome (option string) -> machine -> Prop) :
  (forall i d m, maxRetryAttempts (cfg m) <= i ->
     P i d m (Throw (exhausted (maxRetryAttempts (cfg m)))) m) ->
  (forall i d m r m1, i < maxRetryAttempts (cfg m) ->
     attempt m = (Return r, m1) -> P i d m (Return r) m1) ->
  (forall i d m err m1 r' m', i < maxRetryAttempts (cfg m) ->
     attempt m = (Throw err, m1) -> err_response err = None ->
     P (i + 1) (next_delay W d m1) (after_failure W i d err m1) r' m' ->
     P i d m r' m') ->
  forall fuel i d m,
    (Z.to_nat (maxRetryAttempts (cfg m) - i) < fuel)%nat ->
    P i d m (fst (loop fuel i d m)) (snd (loop fuel i d m)).
Proof.
  intros Hexit Hret Hretry fuel.
  induction fuel as [|fuel IH]; intros i d m Hfuel; [lia|].
  destruct (Z.lt_ge_cases i (maxRetryAttempts (cfg m))) as [Hi|Hi].
  - cbn beta. rewrite (interact_loop_step fuel i d m Hi).
    destruct (attempt m) as [[r|err|] m1] eqn:E.
    + cbn. now apply Hret.
    + assert (Hcfg : cfg m1 = cfg m).
      { pose proof (callCleverbotAPI_same_policy md5 W stimulus context language m) as K.
        rewrite E in K. apply K. }
      apply Hretry with (err := err) (m1 := m1); try assumption.
      * exact (callCleverbotAPI_throws_plain md5 W stimulus context language m err m1 E).
      * apply IH. rewrite after_failure_cfg, Hcfg. lia.
    + exfalso.
      pose proof (callCleverbotAPI_terminates md5 W stimulus context language m) as K.
      rewrite E in K. now apply K.
  - cbn beta. rewrite (interact_loop_exit fuel i d m Hi). cbn. now apply Hexit.
Qed.

(** The loop of [interact] never runs out of the fuel it is given. *)
Lemma interact_loop_terminates (fuel : nat) (i d : Z) (m : machine) :
  (Z.to_nat (maxRetryAttempts (cfg m) - i) < fuel)%nat ->
  fst (loop fuel i d m) <> OutOfFuel.
Proof.
  apply (interact_loop_ind (fun _ _ _ r _ => r <> OutOfFuel)); intros; try discriminate.
  assumption.
Qed.

End Loop.

(** ** Anatomy of one exchange *)

#[local] Instance same_conversation_refl : Reflexive same_conversation.
Proof. intros m. repeat split. Qed.

#[local] Instance same_conversation_trans : Transitive same_conversation.
Proof.
  intros m1 m2 m3 (H1 & H2 & H3 & H4 & H5 & H6) (K1 & K2 & K3 & K4 & K5 & K6).
  repeat split; congruence.
Qed.

Section Anatomy.

Variable md5 : string -> string.

Variable W : world.

Variables (stimulus : string) (context : loc) (language : option string).

Lemma updateCookiesIfNeeded_same_conversation :
  keeps same_conversation (updateCookiesIfNeeded W).
Proof. unfold_code. walk; prim_keeps. Qed.

Lemma updateCookiesIfNeeded_outcome (m : machine) :
  fst (updateCookiesIfNeeded W m) = Return tt
  \/ exists e, fst (updateCookiesIfNeeded W m) = Throw e.
Proof.
  assert (T : terminates (updateCookiesIfNeeded W)) by (unfold_code; walk; prim_terminates).
  specialize (T m). destruct (fst (updateCookiesIfNeeded W m)) as [[]|e|]; eauto. congruence.
Qed.

(** The payload builder: it returns the body of the specification for
    the array as it finds it, and leaves the array reversed. *)
Lemma buildMainPayload_run (m : machine) (history : list string) :
  heap m !! context = Some history ->
  exists m',
    buildMainPayload md5 stimulus context language m
    = (Return (spec_body md5 stimulus history language), m')
    /\ heap m' = <[context := rev history]> (heap m)
    /\ cfg m' = cfg m /\ ses m' = ses m /\ cnt m' = cnt m /\ cur m' = cur m
    /\ posts (trace m') = posts (trace m) /\ sleeps (trace m') = sleeps (trace m).
Proof.
  intros Hh. unfold buildMainPayload, bind, array_reverse, console_debug, read, when, update, ret.
  rewrite Hh. cbv zeta.
  assert (E : forEach_vText (rev history) 0 ("stimulus=" +:+ JsString.encodeURIComponent stimulus +:+ "&")
              +:+ (if JsString.truthy language
                   then "cb_config_language=" +:+ JsString.of_option language +:+ "&" else "")
              +:+ fixed_fields
              = pre_checksum_payload stimulus history language).
  { rewrite forEach_vText_rev. unfold pre_checksum_payload, stimulus_field, language_field.
    now rewrite !append_assoc. }
  rewrite E, substring_7_33. fold (spec_body md5 stimulus history language).
  cbn. destruct (debug (cfg m)); cbn; eexists; (split; [reflexivity|]); cbn;
    rewrite ?posts_app, ?sleeps_app; cbn; rewrite ?app_nil_r; repeat split; reflexivity.
Qed.

Lemma buildMainPayload_no_array (m : machine) :
  heap m !! context = None ->
  exists e, buildMainPayload md5 stimulus context language m = (Throw e, m).
Proof.
  intros Hh. unfold buildMainPayload, bind, array_reverse. rewrite Hh. eauto.
Qed.

Lemma console_debug_same_conversation (label : string) :
  keeps same_conversation (console_debug label).
Proof. unfold_code. walk; prim_keeps. Qed.

Lemma console_debug_returns (label : string) (m : machine) :
  fst (console_debug label m) = Return tt.
Proof. unfold console_debug, bind, read, when, update, ret. now destruct (debug (cfg m)). Qed.

(** An exchange fails before the payload is built (in the cookie
    refresh, or for want of an array), or builds the payload and fails
    before the request (no first cookie to read), or makes the request. *)
Lemma callCleverbotAPI_anatomy (m : machine) :
  let r := fst (callCleverbotAPI md5 W stimulus context language m) in
  let m' := snd (callCleverbotAPI md5 W stimulus context language m) in
  ((exists e, r = Throw e) /\ heap m' = heap m /\ ns (ses m') = ns (ses m)
   /\ c_post (cur m') = c_post (cur m) /\ posts (trace m') = posts (trace m)
   /\ session_ids m' = session_ids m)
  \/ exists history,
       heap m !! context = Some history
       /\ heap m' = <[context := rev history]> (heap m)
       /\ ns (ses m') = ns (ses m) + 1
       /\ (((exists e, r = Throw e) /\ c_post (cur m') = c_post (cur m)
            /\ posts (trace m') = posts (trace m) /\ session_ids m' = session_ids m)
           \/ (c_post (cur m') = S (c_post (cur m))
               /\ posts (trace m') = posts (trace m) ++ [spec_body md5 stimulus history language]
               /\ reply_effect W m m' r)).
Proof.
  cbv zeta. pattern (callCleverbotAPI md5 W stimulus context language m).
  match goal with |- ?Q _ => set (Prop_of := Q) end.
  unfold callCleverbotAPI.
  unfold bind at 1.
  pose proof (console_debug_same_conversation "Calling Cleverbot API with:" m) as K0.
  pose proof (console_debug_returns "Calling Cleverbot API with:" m) as R0.
  destruct (console_debug "Calling Cleverbot API with:" m) as [r0 m0]. cbn in K0, R0. subst r0.
  unfold bind at 1.
  pose proof (updateCookiesIfNeeded_same_conversation m0) as K1.
  pose proof (updateCookiesIfNeeded_outcome m0) as R1.
  destruct (updateCookiesIfNeeded W m0) as [r1 m1]. cbn in K1, R1.
  assert (K : same_conversation m m1) by (etrans; eassumption).
  clear K0 K1. destruct K as (Kh & Kp & Kt & Ki & Kn & Kc).
  destruct R1 as [->|[e ->]].
  2:{ subst Prop_of. left. cbn. repeat split; eauto. }
  unfold bind at 1.
  destruct (heap m1 !! context) as [history|] eqn:Hh.
  2:{ destruct (buildMainPayload_no_array m1 Hh) as [e ->].
      subst Prop_of. left. cbn. repeat split; eauto. }
  destruct (buildMainPayload_run m1 history Hh) as (m2 & -> & Bh & Bc & Bs & Bn & Bu & Bp & _).
  subst Prop_of. right. exists history. rewrite <- Kh. split; [exact Hh|].
  unfold reply_effect, session_ids in *. rewrite <- Kp, <- Kt, <- Kn, <- Ki, <- Bh, <- Bp, <- Bu, <- Bs.
  generalize (spec_body md5 stimulus history language) as payload. intros payload.
  clear - m2.
  unfold buildCookieHeader, console_debug, axios_post.
  unfold bind, try_catch, read, update, ret, throw, when.
  repeat (cbn -[Nat.leb JsString.split];
          match goal with
          | |- context [match cookies (ses ?x) with _ => _ end] =>
              destruct (cookies (ses x)) as [[|? ?]|]
          | |- context [if debug (cfg ?x) then _ else _] => destruct (debug (cfg x))
          | |- context [match w_post W ?n with _ => _ end] =>
              destruct (w_post W n) as [[|? ?]|?]
          | |- context [if (3 <=? ?n)%nat then _ else _] => destruct (3 <=? n)%nat
          end);
    cbn -[Nat.leb JsString.split];
    (split; [reflexivity|]); (split; [reflexivity|]);
    first [ left; repeat split; rewrite ?posts_app; cbn [posts app]; rewrite ?app_nil_r;
            eauto; fail
          | right; repeat split; rewrite ?posts_app; cbn [posts app]; rewrite ?app_nil_r;
            eauto ].
Qed.

End Anatomy.

(** ** The payload builder (C4, C5, C6) *)

Section Payload.

Variable md5 : string -> string.

(** C4.  The body the payload builder returns is [P + P + checksum]: [P]
    is the stimulus field, the vText fields, the language field when a
    language is given and the fixed fields ending in [icognocheck=]; the
    checksum is taken over characters 7 through 32 of [P], which are
    always 26 characters. *)
Theorem C4_body_is_payload_twice_then_checksum
    (stimulus : string) (context : loc) (language : option string)
    (history : list string) (m : machine) :
  heap m !! context = Some history ->
  let P := pre_checksum_payload stimulus history language in
  fst (buildMainPayload md5 stimulus context language m)
  = Return (P +:+ P +:+ md5 (characters P 7 32))
  /\ String.length (characters P 7 32) = 26%nat.
Proof.
  intros Hh P. split.
  - destruct (buildMainPayload_run md5 stimulus context language m history Hh) as (m' & -> & _).
    reflexivity.
  - unfold characters. rewrite length_chars_at; [reflexivity|].
    apply List.Forall_forall. intros i Hi. apply in_seq in Hi.
    unfold P, pre_checksum_payload. rewrite !length_append.
    change (String.length fixed_fields) with 61%nat. cbn in Hi. lia.
Qed.

(** C6.  The vText fields follow the stimulus field and come most recent
    first: field [i] carries the entry at position [i] of the reversed
    history, which is the entry at position [length - 1 - i] of the
    history; with two entries, [vText0] carries the last one. *)
Theorem C6_vText_most_recent_first
    (stimulus : string) (context : loc) (language : option string)
    (history : list string) (m : machine) :
  heap m !! context = Some history ->
  (exists rest,
     fst (buildMainPayload md5 stimulus context language m)
     = Return (stimulus_field stimulus
               +:+ String.concat ""
                     (map (fun i => vText_field i (nth i (rev history) ""))
                          (seq 0 (length history)))
               +:+ rest))
  /\ (forall i, (i < length history)%nat ->
        nth i (rev history) "" = nth (length history - 1 - i) history "")
  /\ (forall older newer, history = [older; newer] ->
        vText_fields history
        = "vText0=" +:+ JsString.encodeURIComponent newer +:+ "&"
          +:+ "vText1=" +:+ JsString.encodeURIComponent older +:+ "&").
Proof.
  intros Hh.
  assert (Hnth : forall i, (i < length history)%nat ->
            nth i (rev history) "" = nth (length history - 1 - i) history "").
  { intros i Hi. rewrite rev_nth by exact Hi. f_equal. lia. }
  split; [|split; [exact Hnth|]].
  - destruct (buildMainPayload_run md5 stimulus context language m history Hh) as (m' & -> & _).
    eexists. cbn [fst]. unfold spec_body, pre_checksum_payload.
    rewrite !append_assoc. do 3 f_equal.
    unfold vText_fields. f_equal. apply map_ext_in. intros i Hi. apply in_seq in Hi.
    rewrite Hnth by lia. reflexivity.
  - intros older newer ->. unfold vText_fields. cbn [length seq map nth Nat.sub].
    rewrite !concat_cons. unfold vText_field. rewrite !append_assoc, append_empty_r.
    reflexivity.
Qed.

End Payload.

Lemma C4_body_witness :
  fst (buildMainPayload sample_md5 "Do you like cats?" 0%nat (Some "en")
         (initial [["Hi."; "Hello!"]]))
  = Return ("stimulus=Do%20you%20like%20cats%3F&vText0=Hello!&vText1=Hi.&cb_config_language=en&cb_config_scripting=no&islearning=1&icognoid=wsf&icognocheck="
            +:+ "stimulus=Do%20you%20like%20cats%3F&vText0=Hello!&vText1=Hi.&cb_config_language=en&cb_config_scripting=no&islearning=1&icognoid=wsf&icognocheck="
            +:+ "md5(s=Do%20you%20like%20cats%3)").
Proof.
  exact (proj1 (C4_body_is_payload_twice_then_checksum sample_md5 "Do you like cats?" 0%nat
                  (Some "en") ["Hi."; "Hello!"] (initial [["Hi."; "Hello!"]]) eq_refl)).
Defined.

Lemma C6_vText_witness :
  vText_fields ["Hi."; "Hello!"] = "vText0=Hello!&vText1=Hi.&".
Proof.
  exact (proj2 (proj2 (C6_vText_most_recent_first sample_md5 "Do you like cats?" 0%nat
                         (Some "en") ["Hi."; "Hello!"] (initial [["Hi."; "Hello!"]]) eq_refl))
           "Hi." "Hello!" eq_refl).
Defined.

(** C5.  The payload builder is not free of effects: called on the
    history [["a"; "b"]], it leaves the caller's array as [["b"; "a"]]. *)
Theorem C5_history_reversed_in_place :
  heap (snd (buildMainPayload sample_md5 "hi" 0%nat (Some "en") (initial [["a"; "b"]])))
  = [["b"; "a"]].
Proof. reflexivity. Qed.

(** The returned string itself depends on nothing but the message, the
    entries of the array and the language. *)
Lemma buildMainPayload_deterministic (md5 : string -> string) (stimulus : string)
    (context1 context2 : loc) (language : option string) (history : list string)
    (m1 m2 : machine) :
  heap m1 !! context1 = Some history ->
  heap m2 !! context2 = Some history ->
  fst (buildMainPayload md5 stimulus context1 language m1)
  = fst (buildMainPayload md5 stimulus context2 language m2).
Proof.
  intros H1 H2.
  destruct (buildMainPayload_run md5 stimulus context1 language m1 history H1) as (? & -> & _).
  destruct (buildMainPayload_run md5 stimulus context2 language m2 history H2) as (? & -> & _).
  reflexivity.
Qed.

(** ** Session reset (C9) *)

Lemma newSession_session (m : machine) : ses (snd (newSession m)) = initial_session.
Proof.
  unfold newSession, console_debug, bind, read, when, update, ret.
  destruct (debug (cfg m)); reflexivity.
Qed.

(** C9.  [newSession] puts the six session variables back to their
    initial values and touches nothing else: the configuration and both
    counters are as before, and so are the caller's arrays. *)
Theorem C9_newSession_resets_session_only (m : machine) :
  fst (newSession m) = Return tt
  /\ ses (snd (newSession m))
     = {| cookies := None; lastCookieUpdate := 0; cbsId := None; xai := None; ns := 0;
          lastResponse := None |}
  /\ ses (snd (newSession m)) = ses (initial [])
  /\ cfg (snd (newSession m)) = cfg m
  /\ successfulRequestsCount (cnt (snd (newSession m))) = successfulRequestsCount (cnt m)
  /\ failedRequestsCount (cnt (snd (newSession m))) = failedRequestsCount (cnt m)
  /\ heap (snd (newSession m)) = heap m.
Proof.
  unfold newSession, console_debug, bind, read, when, update, ret.
  destruct (debug (cfg m)); cbn; repeat split; reflexivity.
Qed.

(** ** The configuration setter (C1) *)

(** Closes a branch of [config] that has thrown. *)
Ltac settle :=
  match goal with
  | H : Some _ = Some _ |- _ => injection H as <-
  end;
  cbn;
  (split; [eexists; split; reflexivity|]);
  (split; [reflexivity|]); (split; [reflexivity|]);
  let k := fresh "k" in
  let Hk := fresh "Hk" in
  intros k Hk; cbn in Hk;
  repeat (destruct Hk as [<-|Hk];
          [cbn; repeat match goal with
                  | E : ?fields !! _ = _ |- _ => rewrite E
                  end; reflexivity|]);
  destruct Hk.

(** Cases on the property [key] of the object given to [config]. *)
Ltac look key :=
  match goal with
  | fields : gmap string value |- _ =>
      destruct (fields !! key) as [[| |?|?|?| |]|] eqn:?; cbn in *
  end.

(** Cases on the sign of the number being checked. *)
Ltac sign :=
  match goal with
  | |- context [(?z <=? 0)%Z] =>
      destruct (Z.leb_spec z 0); destruct (Z.ltb_spec 0 z); try lia; cbn in *
  end.

Section Config.

Variable SUPPORTED_LANGUAGES : list string.

(** C1, as the code has it.  When some recognized key has a value its
    check refuses, [config] throws an error that names the first such key
    in checking order; that key and the keys checked after it keep their
    settings, the keys checked before it have been applied (each is
    absent or valid), and the session and the counters are untouched. *)
Theorem C1_config_rejects_at_first_invalid_key
    (fields : gmap string value) (m : machine) (key : string) :
  first_invalid SUPPORTED_LANGUAGES fields = Some key ->
  let run := config SUPPORTED_LANGUAGES (ArgObject fields) m in
  (exists e, fst run = Throw e /\ includes ("`" +:+ key +:+ "`") (message e) = true)
  /\ ses (snd run) = ses m /\ cnt (snd run) = cnt m
  /\ forall k, In k recognized_keys ->
       setting (cfg (snd run)) k
       = if (index_of k recognized_keys <? index_of key recognized_keys)%nat
         then from_option id (setting (cfg m) k) (fields !! k)
         else setting (cfg m) k.
Proof.
  unfold first_invalid, invalid_in, config. cbn [recognized_keys find].
  unfold bind, update, ret, throw. intros H. cbv zeta.
  look "debug"; try settle;
    (look "defaultLanguage"; try settle;
     [destruct (existsb _ SUPPORTED_LANGUAGES) eqn:?; cbn in *; try settle|];
     (look "maxRetryAttempts"; try settle; [sign; try settle|];
      (look "retryBaseCooldown"; try settle; [sign; try settle|];
       (look "cookieExpirationTime"; try settle; [sign; try settle|];
        discriminate)))).
Qed.

End Config.

Example mixed_object_rejected :
  config sample_languages (ArgObject mixed_object) (initial [])
  = (Throw (Error "Invalid value for `maxRetryAttempts`. It must be a positive number."),
     with_cfg (set_debug true) (initial [])).
Proof. vm_compute. reflexivity. Qed.

Lemma C1_config_witness :
  setting (cfg (snd (config sample_languages (ArgObject mixed_object) (initial [])))) "debug"
  = VBoolean true
  /\ setting (cfg (snd (config sample_languages (ArgObject mixed_object) (initial []))))
       "retryBaseCooldown"
     = VNumber 3000.
Proof.
  assert (H : first_invalid sample_languages mixed_object = Some "maxRetryAttempts")
    by (vm_compute; reflexivity).
  pose proof (C1_config_rejects_at_first_invalid_key sample_languages mixed_object
                (initial []) "maxRetryAttempts" H) as (_ & _ & _ & K).
  split.
  - apply (K "debug"). cbn. tauto.
  - apply (K "retryBaseCooldown"). cbn. tauto.
Defined.

(** C1 as stated fails: the object [{debug: true, maxRetryAttempts: -1}]
    holds an invalid recognized key, the call throws, and yet [debug] has
    been switched on. *)
Lemma C1_valid_key_applied_before_rejection :
  ~ (forall (fields : gmap string value) (m : machine),
       (exists key, In key recognized_keys
                    /\ invalid_in sample_languages fields key = true) ->
       (exists e, fst (config sample_languages (ArgObject fields) m) = Throw e)
       /\ cfg (snd (config sample_languages (ArgObject fields) m)) = cfg m).
Proof.
  intros claim.
  destruct (claim half_valid_object (initial [])) as [_ same].
  - exists "maxRetryAttempts". split; [cbn; tauto|vm_compute; reflexivity].
  - vm_compute in same. discriminate same.
Qed.

(** ** [interact] as a whole *)

Section Interact.

Variable md5 : string -> string.

Variable W : world.

Variable stimulus : string.

Lemma interact_eq (context : option loc) (language : option string) (m : machine) :
  interact md5 W stimulus context language m
  = interact_loop md5 W (S (Z.to_nat (maxRetryAttempts (cfg m)))) 0 0 stimulus
      (fst (interact_start context m)) (interact_language language m)
      (snd (interact_start context m)).
Proof.
  unfold interact, interact_start, interact_language, bind, read, ret, array_alloc.
  destruct context, language; reflexivity.
Qed.

Lemma interact_start_cfg (context : option loc) (m : machine) :
  cfg (snd (interact_start context m)) = cfg m.
Proof. now destruct context. Qed.

(** Induction over the attempts of a call of [interact]. *)
Lemma interact_ind (context : option loc) (language : option string)
    (P : Z -> Z -> machine -> outcome (option string) -> machine -> Prop) (m : machine) :
  let attempt := callCleverbotAPI md5 W stimulus (fst (interact_start context m))
                   (interact_language language m) in
  (forall i d m, maxRetryAttempts (cfg m) <= i ->
     P i d m (Throw (exhausted (maxRetryAttempts (cfg m)))) m) ->
  (forall i d m r m1, i < maxRetryAttempts (cfg m) ->
     attempt m = (Return r, m1) -> P i d m (Return r) m1) ->
  (forall i d m err m1 r' m', i < maxRetryAttempts (cfg m) ->
     attempt m = (Throw err, m1) -> err_response err = None ->
     P (i + 1) (next_delay W d m1) (after_failure W i d err m1) r' m' ->
     P i d m r' m') ->
  P 0 0 (snd (interact_start context m))
    (fst (interact md5 W stimulus context language m))
    (snd (interact md5 W stimulus context language m)).
Proof.
  intros attempt Hexit Hret Hretry. rewrite interact_eq.
  apply (interact_loop_ind md5 W stimulus _ _ P Hexit Hret Hretry).
  rewrite interact_start_cfg. lia.
Qed.

(** [interact] needs no more fuel than it takes. *)
Lemma interact_terminates (context : option loc) (language : option string) (m : machine) :
  fst (interact md5 W stimulus context language m) <> OutOfFuel.
Proof.
  apply (interact_ind context language (fun _ _ _ r _ => r <> OutOfFuel));
    intros; try discriminate; assumption.
Qed.


End Interact.

(** ** Ban detection (C2) *)

(** C2.  With five attempts allowed and a remote that answers 403, the
    call does not stop at the first attempt: it makes five exchange
    requests, sleeps after each, and ends with the error for exhausted
    attempts, not with a ban error. *)
Theorem C2_forbidden_reply_is_retried :
  let run := interact sample_md5 world_forbidden "hi" (Some 0%nat) None five_attempts in
  fst run = Throw (exhausted 5)
  /\ length (posts (trace (snd run))) = 5%nat
  /\ network_calls (trace (snd run)) = 6%nat
  /\ sleeps (trace (snd run)) = [5000; 7500; 10000; 12500; 15000].
Proof. vm_compute. repeat split; reflexivity. Qed.

(** ** Backoff (C8) *)



Section Backoff.

Variable md5 : string -> string.

Variable W : world.

Variable stimulus : string.



End Backoff.


(** ** Malformed replies (C3) *)

Section Malformed.

Variable md5 : string -> string.

Variable W : world.

Variables (stimulus : string) (context : loc) (language : option string).


End Malformed.

Example two_segments :
  JsString.split JsString.CR ("Hello." +:+ String JsString.CR "WXEHBPUEID")
  = ["Hello."; "WXEHBPUEID"].
Proof. reflexivity. Qed.



(** ** The session invariant (C7) *)

#[local] Instance same_session_refl : Reflexive same_session.
Proof. intros m. reflexivity. Qed.

#[local] Instance same_session_trans : Transitive same_session.
Proof. intros m1 m2 m3 H K. unfold same_session in *. congruence. Qed.

Section Session.

Variable md5 : string -> string.

Variable SUPPORTED_LANGUAGES : list string.

Variable W : world.







End Session.

Example first_reply_fills_session :
  session_ids (run_operation sample_md5 sample_languages world_hello (OpInteract "hi" None None) (initial []))
  = (Some "WXEHBPUEID", Some "WXE,42", Some "Hello.").
Proof. vm_compute. reflexivity. Qed.


(** ** The shared history array (C10) *)




Section SharedArray.

Variable md5 : string -> string.

Variable W : world.

Variables (stimulus : string) (context : loc).


End SharedArray.

Section SharedArrayClaim.

Variable md5 : string -> string.

Variable W : world.

Variables (stimulus : string) (context : loc).


End SharedArrayClaim.



(** * Further properties *)

(** ** The configuration setter *)

(** Closes a branch of [config] that has returned. *)
Ltac finish_valid :=
  cbn;
  repeat (split; [reflexivity|]);
  let k := fresh "k" in
  let Hk := fresh "Hk" in
  intros k Hk; cbn in Hk;
  repeat (destruct Hk as [<-|Hk];
          [cbn; repeat match goal with
                  | E : ?fields !! _ = _ |- _ => rewrite E
                  end; reflexivity|]);
  destruct Hk.


#[local] Instance config_stays_valid_refl languages : Reflexive (config_stays_valid languages).
Proof. intros m H. exact H. Qed.

#[local] Instance config_stays_valid_trans languages : Transitive (config_stays_valid languages).
Proof. intros m1 m2 m3 H K V. exact (K (H V)). Qed.

Section ConfigMore.

Variable SUPPORTED_LANGUAGES : list string.

(** X1.  When no recognized key is refused, [config] returns and every
    recognized key that is present takes its value; the absent ones, the
    session and the counters stay as they were. *)
Theorem config_applies_valid_object (fields : gmap string value) (m : machine) :
  first_invalid SUPPORTED_LANGUAGES fields = None ->
  let run := config SUPPORTED_LANGUAGES (ArgObject fields) m in
  fst run = Return tt
  /\ ses (snd run) = ses m /\ cnt (snd run) = cnt m /\ heap (snd run) = heap m
  /\ trace (snd run) = trace m
  /\ forall k, In k recognized_keys ->
       setting (cfg (snd run)) k = from_option id (setting (cfg m) k) (fields !! k).
Proof.
  unfold first_invalid, invalid_in, config. cbn [recognized_keys find].
  unfold bind, update, ret, throw. intros H. cbv zeta.
  look "debug"; try discriminate;
    (look "defaultLanguage"; try discriminate;
     [destruct (existsb _ SUPPORTED_LANGUAGES) eqn:?; cbn in *; try discriminate|];
     (look "maxRetryAttempts"; try discriminate; [sign; try discriminate|];
      (look "retryBaseCooldown"; try discriminate; [sign; try discriminate|];
       (look "cookieExpirationTime"; try discriminate; [sign; try discriminate|];
        finish_valid)))).
Qed.

(** X2.  A key [config] does not know is ignored, whatever its value. *)
Theorem config_ignores_unrecognized_key
    (fields : gmap string value) (key : string) (v : value) (m : machine) :
  ~ In key recognized_keys ->
  config SUPPORTED_LANGUAGES (ArgObject (<[key := v]> fields)) m
  = config SUPPORTED_LANGUAGES (ArgObject fields) m.
Proof.
  intros Hkey. unfold config, bind at 1 3, ret at 1 2.
  assert (L : forall k, In k recognized_keys -> <[key := v]> fields !! k = fields !! k).
  { intros k Hk. apply lookup_insert_ne. intros ->. exact (Hkey Hk). }
  rewrite !L by (cbn; tauto). reflexivity.
Qed.

(** X3.  Anything that is not an object, [null] included, is refused with
    one fixed error, and nothing changes. *)
Theorem config_rejects_non_object (v : value) (m : machine) :
  v <> VObject ->
  config SUPPORTED_LANGUAGES (ArgValue v) m
  = (Throw (Error "The `config` must be provided as an object."), m).
Proof. intros Hv. destruct v; try reflexivity. contradiction. Qed.


End ConfigMore.

Lemma config_applies_witness :
  setting (cfg (snd (config sample_languages (ArgObject valid_object) (initial []))))
    "defaultLanguage"
  = VString "pl".
Proof.
  assert (H : first_invalid sample_languages valid_object = None) by (vm_compute; reflexivity).
  pose proof (config_applies_valid_object sample_languages valid_object (initial []) H)
    as (_ & _ & _ & _ & _ & K).
  apply (K "defaultLanguage"). cbn. tauto.
Defined.

Lemma config_ignores_witness :
  config sample_languages (ArgObject (<["verbose" := VBoolean true]> valid_object)) (initial [])
  = config sample_languages (ArgObject valid_object) (initial []).
Proof.
  apply config_ignores_unrecognized_key. cbn. intros H.
  repeat (destruct H as [H|H]; [discriminate H|]). exact H.
Defined.

Lemma config_rejects_witness :
  config sample_languages (ArgValue VNull) (initial [])
  = (Throw (Error "The `config` must be provided as an object."), initial []).
Proof. apply config_rejects_non_object. discriminate. Defined.

(** ** Counters and settings over whole runs *)

#[local] Instance counters_grow_refl : Reflexive counters_grow.
Proof. intros m. unfold counters_grow. lia. Qed.

#[local] Instance counters_grow_trans : Transitive counters_grow.
Proof. intros m1 m2 m3. unfold counters_grow. lia. Qed.

Ltac prim_grow :=
  match goal with
  | |- keeps _ _ =>
      let m := fresh "m" in
      intros m; unfold date_now, math_random, axios_get, axios_post, array_reverse, array_alloc;
      repeat match goal with
        | |- context [match ?x with _ => _ end] => destruct x
        end
  | _ => idtac
  end;
  unfold counters_grow; cbn; lia.

Section Runs.

Variable md5 : string -> string.
Variable SUPPORTED_LANGUAGES : list string.
Variable W : world.

Lemma callCleverbotAPI_counters_grow (stimulus : string) (context : loc)
    (language : option string) :
  keeps counters_grow (callCleverbotAPI md5 W stimulus context language).
Proof. unfold_code. walk; prim_grow. Qed.

Lemma interact_counters_grow (stimulus : string) (context : option loc)
    (language : option string) (m : machine) :
  counters_grow m (snd (interact md5 W stimulus context language m)).
Proof.
  assert (Hstart : counters_grow m (snd (interact_start context m)))
    by (destruct context; unfold counters_grow; cbn; lia).
  etrans; [exact Hstart|].
  apply (interact_ind md5 W stimulus context language (fun _ _ m0 _ m1 => counters_grow m0 m1)).
  - intros. reflexivity.
  - intros i d m0 r m1 _ E.
    pose proof (callCleverbotAPI_counters_grow stimulus (fst (interact_start context m))
                  (interact_language language m) m0) as K.
    rewrite E in K. exact K.
  - intros i d m0 err m1 r' m' _ E _ IH.
    pose proof (callCleverbotAPI_counters_grow stimulus (fst (interact_start context m))
                  (interact_language language m) m0) as K.
    rewrite E in K. cbn [snd] in K.
    etrans; [exact K|]. etrans; [|exact IH].
    unfold counters_grow. cbn. lia.
Qed.


Lemma newSession_cfg_cnt (m : machine) :
  cfg (snd (newSession m)) = cfg m /\ cnt (snd (newSession m)) = cnt m.
Proof.
  unfold newSession, console_debug, bind, read, when, update, ret.
  destruct (debug (cfg m)); split; reflexivity.
Qed.

Lemma config_cnt_ses (arg : config_arg) (m : machine) :
  cnt (snd (config SUPPORTED_LANGUAGES arg m)) = cnt m
  /\ ses (snd (config SUPPORTED_LANGUAGES arg m)) = ses m.
Proof.
  assert (K : keeps (fun m m' => cnt m' = cnt m /\ ses m' = ses m)
                (config SUPPORTED_LANGUAGES arg)).
  { assert (Reflexive (fun m m' : machine => cnt m' = cnt m /\ ses m' = ses m))
      by (intros x; split; reflexivity).
    assert (Transitive (fun m m' : machine => cnt m' = cnt m /\ ses m' = ses m))
      by (intros x y z [? ?] [? ?]; split; congruence).
    unfold config. walk; split; reflexivity. }
  apply K.
Qed.


(** X5.  The request counters never go down, whatever is called, and only
    [newSession] lowers the exchange counter, to zero; so in every
    reachable machine all three are at least zero. *)
Theorem reachable_counters_grow (m : machine) :
  reachable md5 SUPPORTED_LANGUAGES W m ->
  (0 <= successfulRequestsCount (cnt m) /\ 0 <= failedRequestsCount (cnt m)
   /\ 0 <= ns (ses m))
  /\ forall op,
       let m' := run_operation md5 SUPPORTED_LANGUAGES W op m in
       successfulRequestsCount (cnt m) <= successfulRequestsCount (cnt m')
       /\ failedRequestsCount (cnt m) <= failedRequestsCount (cnt m')
       /\ (ns (ses m) <= ns (ses m') \/ (op = OpNewSession /\ ns (ses m') = 0)).
Proof.
  assert (Step : forall op m,
            let m' := run_operation md5 SUPPORTED_LANGUAGES W op m in
            successfulRequestsCount (cnt m) <= successfulRequestsCount (cnt m')
            /\ failedRequestsCount (cnt m) <= failedRequestsCount (cnt m')
            /\ (ns (ses m) <= ns (ses m') \/ (op = OpNewSession /\ ns (ses m') = 0))).
  { intros op m0. cbv zeta.
    destruct op as [stimulus context language|arg| | |arrays]; cbn [run_operation].
    - destruct (interact_counters_grow stimulus context language m0) as (H1 & H2 & H3).
      repeat split; try assumption. now left.
    - destruct (config_cnt_ses arg m0) as [-> ->]. lia.
    - rewrite (proj2 (newSession_cfg_cnt m0)), newSession_session.
      split; [lia|split; [lia|]]. right. split; reflexivity.
    - cbn. lia.
    - cbn. lia. }
  intros Hreach. split; [|intros op; apply Step].
  induction Hreach as [arrays|op m Hreach IH].
  - cbn. lia.
  - destruct (Step op m) as (H1 & H2 & [H3|[_ H3]]); lia.
Qed.

End Runs.


Lemma reachable_counters_witness :
  0 <= successfulRequestsCount
         (cnt (run_operation sample_md5 sample_languages world_hello
                 (OpInteract "hi" None None) (initial []))).
Proof.
  exact (proj1 (proj1 (reachable_counters_grow sample_md5 sample_languages world_hello _
           (reachable_step sample_md5 sample_languages world_hello
              (OpInteract "hi" None None) (initial [])
              (reachable_initial sample_md5 sample_languages world_hello []))))).
Defined.

(** ** The cookie refresh *)

Section Cookies.

Variable W : world.

(** Works through [updateCookiesIfNeeded], case by case. *)
Ltac crack_cookies m :=
  unfold updateCookiesIfNeeded, console_debug, date_now, axios_get;
  unfold bind, try_catch, read, update, ret, throw, when;
  repeat (cbn;
          match goal with
          | |- context [if debug (cfg m) then _ else _] => destruct (debug (cfg m))
          | |- context [match cookies (ses m) with _ => _ end] =>
              destruct (cookies (ses m)) eqn:?
          | |- context [(?a <? ?b)] => destruct (Z.ltb_spec a b)
          | H : w_get W _ = _ |- context [match w_get W ?n with _ => _ end] => rewrite H
          end);
  cbn.

(** X6.  Inside the validity window the refresh does nothing: no request, and
    the session, the counters and the settings are untouched. *)
Theorem updateCookies_fresh_is_noop (m : machine) (jar : list string) :
  cookies (ses m) = Some jar ->
  w_now W (c_now (cur m)) - lastCookieUpdate (ses m) < cookieExpirationTime (cfg m) ->
  let run := updateCookiesIfNeeded W m in
  fst run = Return tt
  /\ ses (snd run) = ses m /\ cnt (snd run) = cnt m /\ cfg (snd run) = cfg m
  /\ heap (snd run) = heap m
  /\ network_calls (trace (snd run)) = network_calls (trace m).
Proof.
  intros Hjar Hfresh. cbv zeta. crack_cookies m; try discriminate; try lia;
    rewrite ?network_calls_app; cbn; rewrite ?Nat.add_0_r; repeat split; reflexivity.
Qed.

(** X7.  With no jar or an expired one, the refresh makes exactly one
    request.  When it is answered, the jar becomes the [set-cookie]
    header of the answer, the refresh time is the clock reading made
    after the answer, and the success counter goes up by one.  An answer
    without that header leaves the jar unset, so that the next refresh
    asks again. *)
Theorem updateCookies_refresh (m : machine) (set_cookie : option (list string)) :
  cookies_stale W m ->
  w_get W (c_get (cur m)) = GetOk set_cookie ->
  let run := updateCookiesIfNeeded W m in
  fst run = Return tt
  /\ cookies (ses (snd run)) = set_cookie
  /\ lastCookieUpdate (ses (snd run)) = w_now W (Nat.pred (c_now (cur (snd run))))
  /\ successfulRequestsCount (cnt (snd run)) = successfulRequestsCount (cnt m) + 1
  /\ failedRequestsCount (cnt (snd run)) = failedRequestsCount (cnt m)
  /\ network_calls (trace (snd run)) = S (network_calls (trace m))
  /\ session_ids (snd run) = session_ids m
  /\ (set_cookie = None -> cookies_stale W (snd run)).
Proof.
  unfold cookies_stale. intros Hstale Hget. cbv zeta.
  crack_cookies m; try lia;
    rewrite ?network_calls_app; cbn; rewrite ?Nat.add_0_r;
    repeat split; try reflexivity; try lia;
    intros ->; exact I.
Qed.

(** X8.  When the request of the refresh fails, the jar and the refresh time
    stay as they were, the failure counter goes up by one, and the error
    thrown is a new one without [response]: the ban message for a 403,
    the cause's message after a fixed prefix otherwise. *)
Theorem updateCookies_failure (m : machine) (err : error) :
  cookies_stale W m ->
  w_get W (c_get (cur m)) = GetFail err ->
  let run := updateCookiesIfNeeded W m in
  fst run = Throw (Error (cookie_failure_message err))
  /\ ses (snd run) = ses m
  /\ failedRequestsCount (cnt (snd run)) = failedRequestsCount (cnt m) + 1
  /\ successfulRequestsCount (cnt (snd run)) = successfulRequestsCount (cnt m)
  /\ network_calls (trace (snd run)) = S (network_calls (trace m)).
Proof.
  unfold cookies_stale, cookie_failure_message, is_forbidden. intros Hstale Hget. cbv zeta.
  crack_cookies m; try lia;
    destruct (err_response err) as [[code]|]; cbn;
    try (destruct (Z.eqb_spec code 403) as [->|]; cbn);
    rewrite ?network_calls_app; cbn; rewrite ?Nat.add_0_r;
    repeat split; try reflexivity; lia.
Qed.

End Cookies.

Lemma updateCookies_fresh_witness :
  network_calls
    (trace (snd (updateCookiesIfNeeded world_hello
                   (snd (updateCookiesIfNeeded world_hello (initial []))))))
  = 1%nat.
Proof.
  exact (proj2 (proj2 (proj2 (proj2 (proj2
           (updateCookies_fresh_is_noop world_hello
              (snd (updateCookiesIfNeeded world_hello (initial []))) sample_cookie
              eq_refl ltac:(vm_compute; reflexivity))))))).
Defined.

Lemma updateCookies_refresh_witness :
  cookies (ses (snd (updateCookiesIfNeeded world_hello (initial [])))) = Some sample_cookie.
Proof.
  exact (proj1 (proj2 (updateCookies_refresh world_hello (initial []) (Some sample_cookie)
                         I eq_refl))).
Defined.

Lemma updateCookies_failure_witness :
  fst (updateCookiesIfNeeded world_banned_cookies (initial []))
  = Throw (Error "Error code 403. Cookies cannot be updated because your IP address has been banned.").
Proof.
  exact (proj1 (updateCookies_failure world_banned_cookies (initial []) axios_403 I eq_refl)).
Defined.

(** ** The books of one exchange *)

Lemma post_urls_app (t u : list event) : post_urls (t ++ u) = post_urls t ++ post_urls u.
Proof.
  induction t as [|e t IH]; [reflexivity|].
  destruct e; cbn; rewrite IH; reflexivity.
Qed.

Ltac books :=
  unfold succeeded, failed, requested; cbn;
  rewrite ?network_calls_app, ?post_urls_app; cbn; rewrite ?app_nil_r, ?Nat.add_0_r.

Lemma console_debug_quiet (label : string) (m : machine) :
  quiet m (snd (console_debug label m)).
Proof.
  unfold console_debug, bind, read, when, update, ret, quiet.
  destruct (debug (cfg m)); books; repeat split; first [reflexivity|lia].
Qed.

Section Ledger.

Variable md5 : string -> string.

Variable W : world.

Variables (stimulus : string) (context : loc) (language : option string).

Lemma updateCookiesIfNeeded_books (m : machine) :
  refresh_books m (fst (updateCookiesIfNeeded W m)) (snd (updateCookiesIfNeeded W m)).
Proof.
  pattern (updateCookiesIfNeeded W m).
  match goal with |- ?Q _ => set (Prop_of := Q) end.
  unfold updateCookiesIfNeeded, console_debug, date_now, axios_get.
  unfold bind, try_catch, read, update, ret, throw, when.
  repeat (cbn;
          match goal with
          | |- context [if debug (cfg m) then _ else _] => destruct (debug (cfg m))
          | |- context [match cookies (ses m) with _ => _ end] =>
              destruct (cookies (ses m)) eqn:Hjar
          | |- context [(?a <? ?b)] => destruct (a <? b)
          | |- context [match w_get W ?n with _ => _ end] => destruct (w_get W n)
          | |- context [match err_response ?e with _ => _ end] =>
              destruct (err_response e) as [[?]|]
          | |- context [(?a =? 403)] => destruct (a =? 403)
          end);
    cbn; subst Prop_of; cbv beta; unfold refresh_books; books;
    (do 9 (split; [first [reflexivity | lia]|]));
    (split; [let H := fresh in intros H; first [reflexivity | congruence]|]);
    first [ left; split; [reflexivity|]; lia
          | right; split; [eexists; reflexivity|]; lia ].
Qed.

Lemma buildMainPayload_quiet (m : machine) :
  let run := buildMainPayload md5 stimulus context language m in
  quiet m (snd run)
  /\ (heap m !! context = None -> exists e, fst run = Throw e)
  /\ (heap m !! context <> None -> exists payload, fst run = Return payload).
Proof.
  cbv zeta. unfold buildMainPayload, bind, array_reverse, console_debug, read, when, update, ret.
  destruct (heap m !! context) as [history|]; cbv zeta.
  - match goal with |- context [Return (?p +:+ ?q)] => generalize (p +:+ q) end. intros payload.
    cbn. destruct (debug (cfg m)); unfold quiet; books;
      (split; [repeat split; first [reflexivity|lia]|]); (split; [discriminate|]); eauto.
  - unfold quiet; books. split; [repeat split; first [reflexivity|lia]|]. split; [eauto|].
    intros H. now destruct H.
Qed.

Lemma request_url_ext (m m' : machine) :
  cbsId (ses m') = cbsId (ses m) -> xai (ses m') = xai (ses m) ->
  lastResponse (ses m') = lastResponse (ses m) -> ns (ses m') = ns (ses m) ->
  request_url stimulus m' = request_url stimulus m.
Proof. unfold request_url. now intros -> -> -> ->. Qed.

Lemma callCleverbotAPI_ledger (m : machine) :
  let run := callCleverbotAPI md5 W stimulus context language m in
  exchange_ledger W stimulus m (fst run) (snd run)
  /\ (heap m !! context <> None -> forall e, fst run = Throw e -> failed m (snd run) = 1).
Proof.
  cbv zeta. pattern (callCleverbotAPI md5 W stimulus context language m).
  match goal with |- ?Q _ => set (Prop_of := Q) end.
  unfold callCleverbotAPI.
  unfold bind at 1.
  pose proof (console_debug_quiet "Calling Cleverbot API with:" m) as K0.
  pose proof (console_debug_same_conversation "Calling Cleverbot API with:" m) as [H0 _].
  pose proof (console_debug_returns "Calling Cleverbot API with:" m) as R0.
  destruct (console_debug "Calling Cleverbot API with:" m) as [r0 m0]. cbn [fst snd] in K0, H0, R0.
  subst r0. destruct K0 as (_ & Ks0 & Kc0 & Ps0 & Pf0 & Pr0 & Pu0).
  unfold bind at 1.
  pose proof (updateCookiesIfNeeded_books m0) as K1.
  destruct (updateCookiesIfNeeded W m0) as [r1 m1]. cbn [fst snd] in K1.
  destruct K1 as (H1 & _ & Kp1 & Pu1 & Ki1 & Kx1 & Kl1 & Kn1 & Kg1 & Kj1 & K1).
  rewrite Kc0 in Kp1, Kg1, Kj1. rewrite Ks0 in Ki1, Kx1, Kl1, Kn1, Kj1. rewrite Pu0 in Pu1.
  rewrite H0 in H1. clear Ks0 Kc0 Pu0 H0.
  destruct K1 as [(-> & Pf1 & Ps1 & Pr1)|([e ->] & Pf1 & Ps1 & Pr1)].
  2:{ subst Prop_of. cbn [fst snd]. unfold exchange_ledger, succeeded, failed, requested in *.
      split; [|intros _ ? _; lia].
      repeat (split; [first [lia | intros; discriminate | assumption | congruence]|]).
      left. eauto. }
  unfold bind at 1.
  pose proof (buildMainPayload_quiet m1) as K2. cbv zeta in K2.
  destruct (buildMainPayload md5 stimulus context language m1) as [r2 m2]. cbn [fst snd] in K2.
  destruct K2 as ((_ & Ks2 & Kc2 & Ps2 & Pf2 & Pr2 & Pu2) & N2 & S2).
  rewrite H1 in N2, S2. clear H1.
  rewrite <- Kc2 in Kp1, Kg1, Kj1. rewrite <- Ks2 in Ki1, Kx1, Kl1, Kn1. rewrite <- Pu2 in Pu1.
  clear Ks2 Kc2 Pu2.
  destruct (heap m !! context) as [history|].
  2:{ destruct (N2 eq_refl) as [e ->].
      subst Prop_of. cbn [fst snd]. unfold exchange_ledger, succeeded, failed, requested in *.
      split; [|intros H; now destruct H].
      repeat (split; [first [lia | intros; discriminate | assumption | congruence]|]).
      left. eauto. }
  destruct S2 as [payload ->]; [discriminate|]. clear N2.
  match goal with
  | |- Prop_of ?t =>
      set (run := t);
      assert (C : request_books W stimulus m2 (fst run) (snd run))
  end.
  { subst run. clear. revert payload. intros payload.
    match goal with |- request_books _ _ _ (fst ?t) _ => pattern t end.
    match goal with |- ?Q _ => set (Prop_of := Q) end.
    unfold buildCookieHeader, console_debug, axios_post.
    unfold bind, try_catch, read, update, ret, throw, when.
    repeat (cbn -[Nat.leb JsString.split];
            match goal with
            | |- context [match cookies (ses ?x) with _ => _ end] =>
                destruct (cookies (ses x)) as [[|? ?]|]
            | |- context [if debug (cfg ?x) then _ else _] => destruct (debug (cfg x))
            | |- context [match w_post W ?n with _ => _ end] =>
                destruct (w_post W n) as [[|? ?]|?] eqn:Hpost
            | |- context [if (3 <=? ?n)%nat then _ else _] => destruct (3 <=? n)%nat eqn:Hlen
            end);
      cbn -[Nat.leb JsString.split]; subst Prop_of; cbv beta;
      unfold request_books, reply_outcome, request_url, succeeded, failed, requested;
      cbn -[Nat.leb JsString.split];
      rewrite ?network_calls_app, ?post_urls_app; cbn -[Nat.leb JsString.split];
      rewrite ?app_nil_r, ?Nat.add_0_r;
      (split; [reflexivity|]);
      first [ left; (do 5 (split; [first [reflexivity|lia]|])); eexists; reflexivity
            | right; (split; [reflexivity|]); (split; [reflexivity|]); (split; [lia|]);
              rewrite Hpost; rewrite ?Hlen;
              (split; [reflexivity|]);
              first [ left; split; [eexists; reflexivity|]; lia
                    | right; split; [eexists; reflexivity|]; lia ] ]. }
  clearbody run. destruct run as [r m']. cbn [fst snd] in C. subst Prop_of. cbv beta. cbn [fst snd].
  destruct C as (Kg & C).
  unfold exchange_ledger.
  rewrite <- (request_url_ext m m2 Ki1 Kx1 Kl1 Kn1).
  unfold reply_outcome, succeeded, failed, requested in *.
  rewrite <- Kp1, <- Pu1. rewrite Kg.
  destruct C as [(Kp & Pu & Pr & Ps & Pf & [e ->])
                |(Kp & Pu & Pr & Reply & [([v ->] & Ps & Pf)|([e ->] & Ps & Pf)])].
  - split; [|intros _ ? _; lia].
    repeat (split; [first [lia | intros; discriminate | assumption | congruence]|]).
    left. eauto.
  - split; [|intros _ ? [=]].
    repeat (split; [first [lia | intros; lia | assumption | congruence]|]).
    right. eauto.
  - split; [|intros _ ? _; lia].
    repeat (split; [first [lia | intros; discriminate | assumption | congruence]|]).
    right. eauto.
Qed.

End Ledger.

(** ** The books of a call of [interact] *)

Section Calls.

Variable md5 : string -> string.

Variable W : world.

Variable stimulus : string.

Lemma after_failure_books (i d : Z) (err : error) (m : machine) :
  cnt (after_failure W i d err m) = cnt m
  /\ heap (after_failure W i d err m) = heap m
  /\ network_calls (trace (after_failure W i d err m)) = network_calls (trace m)
  /\ post_urls (trace (after_failure W i d err m)) = post_urls (trace m).
Proof.
  unfold after_failure. cbn. rewrite !network_calls_app, !post_urls_app. cbn.
  rewrite !app_nil_r, !Nat.add_0_r. repeat split; reflexivity.
Qed.

Lemma callCleverbotAPI_keeps_array (context : loc) (language : option string) (m : machine) :
  heap m !! context <> None ->
  heap (snd (callCleverbotAPI md5 W stimulus context language m)) !! context <> None.
Proof.
  intros Hh.
  destruct (callCleverbotAPI_anatomy md5 W stimulus context language m)
    as [(_ & -> & _)|(history & Hhist & -> & _)]; [exact Hh|].
  rewrite list_lookup_insert_eq; [discriminate|].
  apply lookup_lt_Some in Hhist. exact Hhist.
Qed.

Lemma interact_loop_books (context : loc) (language : option string)
    (i d : Z) (m : machine) (fuel : nat) :
  (Z.to_nat (maxRetryAttempts (cfg m) - i) < fuel)%nat ->
  interact_books context i m
    (fst (interact_loop md5 W fuel i d stimulus context language m))
    (snd (interact_loop md5 W fuel i d stimulus context language m)).
Proof.
  revert fuel i d m.
  apply (interact_loop_ind md5 W stimulus context language
           (fun i _ m r m' => interact_books context i m r m')).
  - intros i d m Hi. unfold interact_books, succeeded, failed, requested.
    rewrite Z.max_l by lia. cbn.
    repeat (split; [first [lia | intros; discriminate]|]). intros; lia.
  - intros i d m r m1 Hi E.
    pose proof (callCleverbotAPI_ledger md5 W stimulus context language m) as [L _].
    rewrite E in L. cbn [fst snd] in L.
    destruct L as ((Ls & Lf) & Lr & La & Lret & _ & _ & Lp).
    destruct (Lret r eq_refl) as [Lf0 Ls1].
    unfold interact_books. rewrite Z.max_r by lia.
    repeat (split; [first [lia | intros; lia]|]).
    split; [|split; [intros; lia|intros _ ? [=]]].
    destruct Lp as [(_ & -> & _)|(_ & -> & _)]; rewrite ?length_app; cbn; lia.
  - intros i d m err m1 r' m' Hi E _ IH.
    pose proof (callCleverbotAPI_ledger md5 W stimulus context language m) as [L Lthrow].
    pose proof (callCleverbotAPI_keeps_array context language m) as Harr.
    pose proof (callCleverbotAPI_same_policy md5 W stimulus context language m) as [Hcfg _].
    rewrite E in L, Lthrow, Harr, Hcfg. cbn [fst snd] in L, Lthrow, Harr, Hcfg.
    destruct L as ((Ls & Lf) & Lr & La & _ & _ & _ & Lp).
    destruct (after_failure_books i d err m1) as (Ac & Ah & An & Au).
    unfold interact_books in *. rewrite after_failure_cfg, Hcfg, Ah, Au in IH.
    unfold succeeded, failed, requested in *. rewrite Ac, An in IH.
    destruct IH as (Is & If & Ir & Ia & Ip & Iret & Ithrow).
    split; [lia|]. split; [lia|]. split; [lia|]. split; [lia|].
    split; [|split].
    + destruct Lp as [(_ & Lu & _)|(_ & Lu & _)]; rewrite Lu in Ip;
        rewrite ?length_app in Ip; cbn in Ip; lia.
    + intros v Hv. specialize (Iret v Hv). lia.
    + intros Hh e He. specialize (Ithrow (Harr Hh) e He).
      specialize (Lthrow Hh err eq_refl). lia.
Qed.

Lemma interact_books_run (context : option loc) (language : option string) (m : machine) :
  interact_books (fst (interact_start context m)) 0 (snd (interact_start context m))
    (fst (interact md5 W stimulus context language m))
    (snd (interact md5 W stimulus context language m)).
Proof.
  rewrite interact_eq. apply interact_loop_books. rewrite interact_start_cfg. lia.
Qed.

Lemma interact_start_books (context : option loc) (m : machine) :
  cfg (snd (interact_start context m)) = cfg m
  /\ cnt (snd (interact_start context m)) = cnt m
  /\ trace (snd (interact_start context m)) = trace m
  /\ ses (snd (interact_start context m)) = ses m.
Proof. destruct context; repeat split; reflexivity. Qed.


Lemma attempt_other_arrays (context : loc) (language : option string) (m : machine) :
  other_arrays_kept context m (snd (callCleverbotAPI md5 W stimulus context language m)).
Proof.
  unfold other_arrays_kept.
  destruct (callCleverbotAPI_anatomy md5 W stimulus context language m)
    as [(_ & -> & _)|(history & _ & -> & _)]; (split; [|intros l Hl]).
  - reflexivity.
  - reflexivity.
  - apply length_insert.
  - apply list_lookup_insert_ne. congruence.
Qed.

End Calls.

(** ** What one exchange asks, and what it counts *)

Section ExchangeFacts.

Variable md5 : string -> string.

Variable W : world.

Variables (stimulus : string) (context : loc) (language : option string).



End ExchangeFacts.

(** ** What a call of [interact] asks, counts and leaves *)


Section InteractFacts.

Variable md5 : string -> string.

Variable W : world.

Variable stimulus : string.

Variables (context : option loc) (language : option string).




(** X14.  [interact] touches no array but the one it works on: every array
    the caller holds, other than the context passed, is afterwards where
    and what it was; a call without a context adds one array to the
    store and a call with one adds none. *)
Theorem interact_leaves_other_arrays (m : machine) :
  let m' := snd (interact md5 W stimulus context language m) in
  (forall l a, heap m !! l = Some a -> context <> Some l -> heap m' !! l = Some a)
  /\ length (heap m') = (length (heap m) + (if context is Some _ then 0 else 1))%nat.
Proof.
  cbv zeta.
  assert (K : other_arrays_kept (fst (interact_start context m))
                (snd (interact_start context m))
                (snd (interact md5 W stimulus context language m))).
  { apply (interact_ind md5 W stimulus context language
             (fun _ _ m0 _ m1 => other_arrays_kept (fst (interact_start context m)) m0 m1)).
    - intros. split; reflexivity.
    - intros i d m0 r m1 _ E.
      pose proof (attempt_other_arrays md5 W stimulus (fst (interact_start context m))
                    (interact_language language m) m0) as K.
      rewrite E in K. exact K.
    - intros i d m0 err m1 r' m' _ E _ [IHn IHl].
      pose proof (attempt_other_arrays md5 W stimulus (fst (interact_start context m))
                    (interact_language language m) m0) as K.
      rewrite E in K. destruct K as [Kn Kl]. cbn [snd] in Kn, Kl.
      change (heap (after_failure W i d err m1)) with (heap m1) in IHn, IHl.
      split; [congruence|]. intros l Hl. now rewrite IHl, Kl. }
  destruct K as [Kn Kl]. destruct context as [c|]; cbn [fst snd interact_start] in Kn, Kl;
    cbv iota.
  - split; [|lia]. intros l a Ha Hne. rewrite Kl; [exact Ha|congruence].
  - cbn [heap with_heap] in Kn, Kl. rewrite length_app in Kn. cbn [length] in Kn. split; [|lia].
    intros l a Ha _. pose proof (lookup_lt_Some _ _ _ Ha) as Hlt.
    rewrite Kl by lia. now rewrite lookup_app_l.
Qed.

End InteractFacts.


(** ** Requests and counters over whole runs *)

Section RunFacts.

Variable md5 : string -> string.

Variable SUPPORTED_LANGUAGES : list string.

Variable W : world.

Lemma config_trace (arg : config_arg) (m : machine) :
  trace (snd (config SUPPORTED_LANGUAGES arg m)) = trace m.
Proof.
  assert (K : keeps (fun m m' => trace m' = trace m) (config SUPPORTED_LANGUAGES arg)).
  { assert (Reflexive (fun m m' : machine => trace m' = trace m)) by (intros x; reflexivity).
    assert (Transitive (fun m m' : machine => trace m' = trace m))
      by (intros x y z ? ?; congruence).
    unfold config. walk; reflexivity. }
  apply K.
Qed.

Lemma newSession_requests (m : machine) :
  network_calls (trace (snd (newSession m))) = network_calls (trace m).
Proof.
  unfold newSession, console_debug, bind, read, when, update, ret.
  destruct (debug (cfg m)); cbn; rewrite ?network_calls_app; cbn; lia.
Qed.

(** X15.  The two counters never miss a request: in every reachable machine
    the requests made so far, cookie requests and exchange requests
    together, are at most the successes and failures counted. *)
Theorem reachable_requests_counted (m : machine) :
  reachable md5 SUPPORTED_LANGUAGES W m ->
  Z.of_nat (network_calls (trace m))
  <= successfulRequestsCount (cnt m) + failedRequestsCount (cnt m).
Proof.
  induction 1 as [arrays|op m Hreach IH].
  - cbn. lia.
  - destruct op as [stimulus context language|arg| | |arrays]; cbn [run_operation].
    + pose proof (interact_books_run md5 W stimulus context language m) as B.
      destruct (interact_start_books context m) as (_ & Hn & Ht & _).
      unfold interact_books, succeeded, failed, requested in B. rewrite Hn, Ht in B.
      destruct B as (_ & _ & _ & Ba & _). lia.
    + rewrite config_trace, (proj1 (config_cnt_ses SUPPORTED_LANGUAGES arg m)). exact IH.
    + rewrite newSession_requests, (proj2 (newSession_cfg_cnt m)). exact IH.
    + exact IH.
    + exact IH.
Qed.

End RunFacts.

Lemma reachable_requests_witness :
  Z.of_nat (network_calls (trace (run_operation sample_md5 sample_languages world_hello
                                    (OpInteract "hi" None None) (initial []))))
  <= 2.
Proof.
  exact (reachable_requests_counted sample_md5 sample_languages world_hello _
           (reachable_step sample_md5 sample_languages world_hello
              (OpInteract "hi" None None) (initial [])
              (reachable_initial sample_md5 sample_languages world_hello []))).
Defined.

(** ** Fields and cookies *)

Lemma lacks_append (sep : ascii) (a b : string) :
  lacks sep (a +:+ b) = lacks sep a && lacks sep b.
Proof.
  induction a as [|c a IH]; [now rewrite append_empty_l|].
  rewrite append_String. cbn [lacks]. rewrite IH. now rewrite andb_assoc.
Qed.

(** A field without separator, closed by one, is the next item of the
    split. *)
Lemma split_field (sep : ascii) (field rest : string) :
  lacks sep field = true ->
  JsString.split sep (field +:+ String sep rest) = field :: JsString.split sep rest.
Proof.
  induction field as [|c field IH]; intros H.
  - rewrite append_empty_l. cbn [JsString.split]. now rewrite Ascii.eqb_refl.
  - cbn [lacks] in H. apply andb_true_iff in H as [Hc Hf].
    rewrite append_String. cbn [JsString.split].
    destruct (Ascii.eqb c sep); [discriminate|]. now rewrite (IH Hf).
Qed.

Lemma split_last (sep : ascii) (field : string) :
  lacks sep field = true -> JsString.split sep field = [field].
Proof.
  induction field as [|c field IH]; intros H; [reflexivity|].
  cbn [lacks] in H. apply andb_true_iff in H as [Hc Hf].
  cbn [JsString.split]. destruct (Ascii.eqb c sep); [discriminate|]. now rewrite (IH Hf).
Qed.

Lemma lacks_encode_char (c : ascii) : lacks "&" (JsString.encode_char c) = true.
Proof. destruct c as [[] [] [] [] [] [] [] []]; vm_compute; reflexivity. Qed.

Lemma lacks_encodeURIComponent (s : string) :
  lacks "&" (JsString.encodeURIComponent s) = true.
Proof.
  induction s as [|c s IH]; [reflexivity|].
  cbn [JsString.encodeURIComponent]. now rewrite lacks_append, lacks_encode_char, IH.
Qed.

Lemma lacks_string_of_uint (d : Decimal.uint) : lacks "&" (NilZero.string_of_uint d) = true.
Proof.
  destruct d as [|d|d|d|d|d|d|d|d|d|d]; [reflexivity|..];
    cbn [NilZero.string_of_uint]; cbn [lacks];
    (induction d as [|d IH|d IH|d IH|d IH|d IH|d IH|d IH|d IH|d IH|d IH];
     [reflexivity|exact IH..]).
Qed.

Lemma forEach_vText_prefix (a : list string) :
  forall i payload, forEach_vText a i payload = payload +:+ forEach_vText a i "".
Proof.
  induction a as [|msg a IH]; intros i payload; cbn [forEach_vText].
  - now rewrite append_empty_r.
  - rewrite (IH (S i) (payload +:+ _)), (IH (S i) ("" +:+ _)).
    now rewrite append_empty_l, !append_assoc.
Qed.

Lemma split_vTexts (a : list string) (rest : string) :
  forall i,
    JsString.split "&" (forEach_vText a i "" +:+ rest)
    = vText_list a i ++ JsString.split "&" rest.
Proof.
  induction a as [|msg a IH]; intros i; cbn [forEach_vText vText_list].
  - now rewrite append_empty_l.
  - rewrite forEach_vText_prefix, append_empty_l, !append_assoc.
    change ("&" +:+ forEach_vText a (S i) "" +:+ rest)
      with (String "&" (forEach_vText a (S i) "" +:+ rest)).
    rewrite <- !append_assoc.
    rewrite split_field.
    + rewrite IH, !append_assoc. reflexivity.
    + rewrite !lacks_append, lacks_encodeURIComponent.
      unfold JsString.of_nat. rewrite lacks_string_of_uint. reflexivity.
Qed.

Section Fields.

Variable md5 : string -> string.

Variables (stimulus : string) (context : loc) (language : option string).

(** X16.  The text a caller passes cannot break out of its field: whatever
    the message and the history hold, the first copy of the form in the
    body splits on [&] into the message field, one [vText] field per
    history entry in the order the builder walks the array, the language
    field if a language is given, and the four fixed fields.  The
    language is not escaped, so this needs a language without [&]. *)
Theorem payload_fields_parse_back (m : machine) (history : list string) :
  heap m !! context = Some history ->
  (forall l, language = Some l -> lacks "&" l = true) ->
  exists P,
    fst (buildMainPayload md5 stimulus context language m)
    = Return (P +:+ P +:+ md5 (JsString.substring P 7 33))
    /\ JsString.split "&" P = payload_fields stimulus (rev history) language.
Proof.
  intros Hh Hlang.
  exists (forEach_vText (rev history) 0
            ("stimulus=" +:+ JsString.encodeURIComponent stimulus +:+ "&")
          +:+ (if JsString.truthy language
               then "cb_config_language=" +:+ JsString.of_option language +:+ "&" else "")
          +:+ fixed_fields).
  split.
  { unfold buildMainPayload, array_reverse, console_debug.
    unfold bind, read, when, update, ret. rewrite Hh. cbv zeta.
    change (cfg (with_heap (fun h => <[context := rev history]> h) m)) with (cfg m).
    destruct (debug (cfg m)); reflexivity. }
  rewrite forEach_vText_prefix, !append_assoc.
  change ("&" +:+ forEach_vText (rev history) 0 ""
          +:+ (if JsString.truthy language
               then "cb_config_language=" +:+ JsString.of_option language +:+ "&" else "")
          +:+ fixed_fields)
    with (String "&" (forEach_vText (rev history) 0 ""
          +:+ (if JsString.truthy language
               then "cb_config_language=" +:+ JsString.of_option language +:+ "&" else "")
          +:+ fixed_fields)).
  rewrite <- append_assoc.
  rewrite split_field by (rewrite lacks_append, lacks_encodeURIComponent; reflexivity).
  rewrite split_vTexts. unfold payload_fields. f_equal. f_equal.
  destruct language as [[|c l]|]; cbn [JsString.truthy JsString.of_option].
  - now rewrite append_empty_l.
  - rewrite !append_assoc.
    change ("&" +:+ fixed_fields) with (String "&" fixed_fields).
    rewrite <- append_assoc.
    rewrite split_field by (rewrite lacks_append, (Hlang _ eq_refl); reflexivity).
    reflexivity.
  - now rewrite append_empty_l.
Qed.

End Fields.

Lemma payload_fields_witness :
  exists P,
    fst (buildMainPayload sample_md5 "a&b=c" 0%nat (Some "en") (initial [["x&y"; "z"]]))
    = Return (P +:+ P +:+ sample_md5 (JsString.substring P 7 33))
    /\ JsString.split "&" P
       = ["stimulus=a%26b%3Dc"; "vText0=z"; "vText1=x%26y"; "cb_config_language=en";
          "cb_config_scripting=no"; "islearning=1"; "icognoid=wsf"; "icognocheck="].
Proof.
  refine (payload_fields_parse_back sample_md5 "a&b=c" 0%nat (Some "en")
            (initial [["x&y"; "z"]]) ["x&y"; "z"] _ _).
  - reflexivity.
  - intros l [= <-]. reflexivity.
Defined.

(** X17.  Of the cookies the remote sets, the header of an exchange request
    carries the first one only, and of that one only the pair before the
    first [;]: its attributes and all other cookies are dropped.  The
    rest of the header comes from the session. *)
Theorem cookie_header_first_pair (m : machine) (pair rest : string) (jar : list string) :
  cookies (ses m) = Some ((pair +:+ rest) :: jar) ->
  lacks ";" pair = true ->
  rest = "" \/ (exists attributes, rest = String ";" attributes) ->
  fst (buildCookieHeader m)
  = Return ("_cbsid=-1; " +:+ pair +:+ ";" +:+ session_cookies (ses m)).
Proof.
  intros Hjar Hpair Hrest.
  assert (Hhd : hd "" (JsString.split ";" (pair +:+ rest)) = pair).
  { destruct Hrest as [->|[attributes ->]].
    - now rewrite append_empty_r, split_last.
    - now rewrite split_field. }
  unfold buildCookieHeader, console_debug. unfold bind, read, when, update, ret.
  cbv beta iota zeta. rewrite Hjar. cbv beta iota zeta. rewrite Hhd. unfold session_cookies.
  destruct (debug (cfg m)), (JsString.truthy (xai (ses m))), (JsString.truthy (cbsId (ses m))),
    (JsString.truthy (lastResponse (ses m))); cbv beta iota zeta; cbn [fst];
    rewrite ?append_assoc, ?append_empty_l; reflexivity.
Qed.

Lemma cookie_header_witness :
  fst (buildCookieHeader
         (with_ses (set_cookies (Some [sample_set_cookie; "other=1"])) (initial [])))
  = Return "_cbsid=-1; XVIS=TE1939AFFIAGAYQZA; note=1;".
Proof.
  refine (cookie_header_first_pair
            (with_ses (set_cookies (Some [sample_set_cookie; "other=1"])) (initial []))
            "XVIS=TE1939AFFIAGAYQZA" "; Path=/; HttpOnly" ["other=1"] _ _ _).
  - reflexivity.
  - reflexivity.
  - right. eexists. reflexivity.
Defined.

(** ** Conversations across calls *)

Section Conversation.

Variable md5 : string -> string.

Variable W : world.

Lemma newSession_books (m : machine) :
  cur (snd (newSession m)) = cur m
  /\ post_urls (trace (snd (newSession m))) = post_urls (trace m).
Proof.
  unfold newSession, console_debug. unfold bind, read, when, update, ret.
  destruct (debug (cfg m)); cbn; rewrite ?post_urls_app; cbn; rewrite ?app_nil_r;
    split; reflexivity.
Qed.

(** X18.  After [newSession] the next exchange starts over: it fetches the
    cookies anew, whatever the age of the old ones, and if it gets as
    far as asking, it asks the bare endpoint, with nothing of the old
    conversation in the URL. *)
Theorem exchange_after_newSession (stimulus : string) (context : loc)
    (language : option string) (m : machine) :
  let run := callCleverbotAPI md5 W stimulus context language (snd (newSession m)) in
  c_get (cur (snd run)) = S (c_get (cur m))
  /\ (post_urls (trace (snd run)) = post_urls (trace m)
      \/ post_urls (trace (snd run)) = post_urls (trace m) ++ [bare_endpoint]).
Proof.
  cbv zeta.
  destruct (callCleverbotAPI_ledger md5 W stimulus context language (snd (newSession m)))
    as [L _].
  destruct (newSession_books m) as [Hc Hu].
  pose proof (newSession_session m) as Hs.
  destruct L as (_ & _ & _ & _ & _ & Hget & Hpost).
  rewrite Hs, Hc in Hget. split; [exact (Hget eq_refl)|].
  rewrite Hu in Hpost. destruct Hpost as [(_ & Hp & _)|(_ & Hp & _)]; [now left|right].
  rewrite Hp. unfold request_url. rewrite Hs. cbn [cbsId initial_session JsString.truthy].
  now rewrite append_empty_r.
Qed.

(** X19.  A reply carries the conversation on: when an exchange returns a
    reply, the next exchange, if it gets as far as asking, sends that
    reply back with the session id and the auth token the remote gave,
    and with the exchange counter raised twice.  A remote that gives an
    empty session id is asked the bare endpoint again. *)
Theorem reply_continues_conversation (stimulus : string) (context : loc)
    (language : option string) (m : machine) (reply : string)
    (next : string) (context' : loc) (language' : option string) :
  fst (callCleverbotAPI md5 W stimulus context language m) = Return (Some reply) ->
  let m1 := snd (callCleverbotAPI md5 W stimulus context language m) in
  let run := callCleverbotAPI md5 W next context' language' m1 in
  exists id token,
    session_ids m1 = (Some id, Some token, Some reply)
    /\ (post_urls (trace (snd run)) = post_urls (trace m1)
        \/ post_urls (trace (snd run))
           = post_urls (trace m1)
             ++ [if decide (id = "") then bare_endpoint
                 else continuation_url reply next id token (ns (ses m) + 2)]).
Proof.
  intros Hret. cbv zeta.
  destruct (callCleverbotAPI_anatomy md5 W stimulus context language m)
    as [([e He] & _)|(h & _ & _ & Hns & [([e He] & _)|(_ & _ & Reply)])];
    [congruence..|].
  unfold reply_effect in Reply. rewrite Hret in Reply.
  destruct (w_post W (c_post (cur m))) as [[|c data]|err];
    [destruct Reply as (_ & [e [=]])| |destruct Reply as (_ & [e [=]])].
  cbv zeta in Reply.
  set (lines := JsString.split JsString.CR (String c data)) in Reply. clearbody lines.
  destruct (3 <=? length lines)%nat; [|destruct Reply as ([=] & _)].
  destruct Reply as ([= ->] & Hids). unfold ids_of_lines in Hids.
  eexists. eexists. split; [exact Hids|].
  injection Hids as Hid Htok Hlast.
  destruct (callCleverbotAPI_ledger md5 W next context' language'
              (snd (callCleverbotAPI md5 W stimulus context language m))) as [L _].
  destruct L as (_ & _ & _ & _ & _ & _ & [(_ & Hp & _)|(_ & Hp & _)]); [now left|right].
  rewrite Hp. f_equal. f_equal. unfold request_url. rewrite Hid, Htok, Hlast, Hns.
  cbn [JsString.of_option].
  destruct (nth 1 lines "") as [|a id] eqn:E.
  - cbn [JsString.truthy]. rewrite append_empty_r. now destruct (decide ("" = "")).
  - cbn [JsString.truthy]. destruct (decide (String a id = "")) as [[=]|_].
    unfold continuation_url. rewrite !append_assoc.
    replace (ns (ses m) + 1 + 1) with (ns (ses m) + 2) by lia. reflexivity.
Qed.

End Conversation.

Lemma reply_continues_witness :
  let m1 := snd (callCleverbotAPI sample_md5 world_hello "hi" 0%nat (Some "en") (initial [[]])) in
  let run := callCleverbotAPI sample_md5 world_hello "and you?" 0%nat (Some "en") m1 in
  exists id token,
    session_ids m1 = (Some id, Some token, Some "Hello.")
    /\ (post_urls (trace (snd run)) = post_urls (trace m1)
        \/ post_urls (trace (snd run))
           = post_urls (trace m1)
             ++ [if decide (id = "") then bare_endpoint
                 else continuation_url "Hello." "and you?" id token
                        (ns (ses (initial [[]])) + 2)]).
Proof.
  refine (reply_continues_conversation sample_md5 world_hello "hi" 0%nat (Some "en")
            (initial [[]]) "Hello." "and you?" 0%nat (Some "en") _).
  vm_compute. reflexivity.
Defined.

Example second_request_url :
  let m1 := snd (callCleverbotAPI sample_md5 world_hello "hi" 0%nat (Some "en") (initial [[]])) in
  post_urls (trace (snd (callCleverbotAPI sample_md5 world_hello "and you?" 0%nat (Some "en") m1)))
  = [bare_endpoint;
     bare_endpoint +:+ "out=Hello.&in=and%20you%3F&bot=c&cbsid=WXEHBPUEID&xai=WXE,42&ns=2"
     +:+ "&al=&dl=&flag=&user=&mode=1&alt=0&reac=&emo=&sou=website&xed=&"].
Proof. vm_compute. reflexivity. Qed.

(** ** Debug output *)

Lemma without_debug_snoc (t : list event) (e : event) :
  without_debug (t ++ [e]) = without_debug t ++ (if is_debug_line e then [] else [e]).
Proof. unfold without_debug. rewrite List.filter_app. cbn. now destruct (is_debug_line e). Qed.

Lemma related_ret {A} (a : A) : related (ret a) (ret a).
Proof. intros m1 m2 H. split; [reflexivity|exact H]. Qed.

Lemma related_throw {A} (e : error) : related (throw e : M A) (throw e).
Proof. intros m1 m2 H. split; [reflexivity|exact H]. Qed.

Lemma related_bind {A B} (c1 c2 : M A) (k1 k2 : A -> M B) :
  related c1 c2 -> (forall a, related (k1 a) (k2 a)) -> related (bind c1 k1) (bind c2 k2).
Proof.
  intros Hc Hk m1 m2 H. unfold bind. destruct (Hc m1 m2 H) as [Ho Hm].
  destruct (c1 m1) as [o1 m1'], (c2 m2) as [o2 m2']. cbn [fst snd] in Ho, Hm. subst o2.
  destruct o1 as [a|e|]; [exact (Hk a m1' m2' Hm)|split; [reflexivity|exact Hm]..].
Qed.

Lemma related_try_catch {A} (c1 c2 : M A) (h1 h2 : error -> M A) :
  related c1 c2 -> (forall e, related (h1 e) (h2 e)) ->
  related (try_catch c1 h1) (try_catch c2 h2).
Proof.
  intros Hc Hh m1 m2 H. unfold try_catch. destruct (Hc m1 m2 H) as [Ho Hm].
  destruct (c1 m1) as [o1 m1'], (c2 m2) as [o2 m2']. cbn [fst snd] in Ho, Hm. subst o2.
  destruct o1 as [a|e|]; [split; [reflexivity|exact Hm]|exact (Hh e m1' m2' Hm)|].
  split; [reflexivity|exact Hm].
Qed.

Lemma related_read {A} (f : machine -> A) :
  (forall m1 m2, same_but_debug m1 m2 -> f m1 = f m2) -> related (read f) (read f).
Proof. intros Hf m1 m2 H. unfold read. cbn. split; [now rewrite (Hf m1 m2 H)|exact H]. Qed.

Lemma related_update (f : machine -> machine) :
  (forall m1 m2, same_but_debug m1 m2 -> same_but_debug (f m1) (f m2)) ->
  related (update f) (update f).
Proof. intros Hf m1 m2 H. unfold update. cbn. split; [reflexivity|exact (Hf m1 m2 H)]. Qed.

(** Reading the flag relates two runs whatever the two flags are, if
    what follows does. *)
Lemma related_read_debug {A} (k1 k2 : bool -> M A) :
  (forall d1 d2, related (k1 d1) (k2 d2)) ->
  related (bind (read (fun m => debug (cfg m))) k1) (bind (read (fun m => debug (cfg m))) k2).
Proof. intros Hk m1 m2 H. unfold bind, read. exact (Hk _ _ m1 m2 H). Qed.

(** A debug line, written or not. *)
Lemma related_log (d1 d2 : bool) (s1 s2 : string) :
  related (when d1 (update (emit (ConsoleDebug s1)))) (when d2 (update (emit (ConsoleDebug s2)))).
Proof.
  intros m1 m2 (H1 & H2 & H3 & H4 & H5 & H6 & H7 & H8 & H9).
  destruct d1, d2; unfold same_but_debug; cbn -[without_debug];
    rewrite ?without_debug_snoc; cbn -[without_debug];
    rewrite ?app_nil_r; repeat split; assumption.
Qed.

Lemma related_console_debug (label : string) : related (console_debug label) (console_debug label).
Proof. unfold console_debug. apply related_read_debug. intros d1 d2. apply related_log. Qed.

(** Closes the side conditions of [related_read] and [related_update],
    and the primitives of the host. *)
Ltac alike :=
  let m1 := fresh "m1" in
  let m2 := fresh "m2" in
  let Hs := fresh "Hs" in
  let Hn := fresh "Hn" in
  let Hh := fresh "Hh" in
  let Hc := fresh "Hc" in
  intros m1 m2 (? & ? & ? & ? & Hs & Hn & Hh & Hc & ?);
  unfold date_now, math_random, axios_get, axios_post, array_reverse, array_alloc,
    same_but_debug;
  cbn -[without_debug]; rewrite ?Hs, ?Hn, ?Hh, ?Hc;
  repeat match goal with
    | |- context [match ?x with _ => _ end] => destruct x
    end;
  cbn -[without_debug]; rewrite ?without_debug_snoc; cbn -[without_debug];
  repeat split; congruence.

Section HostAlike.

Variable W : world.

Lemma related_date_now : related (date_now W) (date_now W).
Proof. alike. Qed.

Lemma related_math_random : related (math_random W) (math_random W).
Proof. alike. Qed.

Lemma related_axios_get (stamp : Z) (cookie : string) (timeout : Z) :
  related (axios_get W stamp cookie timeout) (axios_get W stamp cookie timeout).
Proof. alike. Qed.

Lemma related_axios_post (url payload : string) (n : Z) (cookie : string) (timeout : Z) :
  related (axios_post W url payload n cookie timeout) (axios_post W url payload n cookie timeout).
Proof. alike. Qed.

Lemma related_array_reverse (l : loc) : related (array_reverse l) (array_reverse l).
Proof. alike. Qed.

Lemma related_array_alloc (a : list string) : related (array_alloc a) (array_alloc a).
Proof. alike. Qed.

End HostAlike.

(** Walks two runs of the same code side by side. *)
Ltac walk_both :=
  repeat (cbv beta;
    match goal with
    | |- related (bind (read (fun x => debug (cfg x))) _) (bind (read (fun y => debug (cfg y))) _) =>
        apply related_read_debug; intros ? ?
    | |- related (bind _ _) (bind _ _) => apply related_bind; [|intros ?]
    | |- related (try_catch _ _) (try_catch _ _) => apply related_try_catch; [|intros ?]
    | |- related (ret _) (ret _) => apply related_ret
    | |- related (throw _) (throw _) => apply related_throw
    | |- related (when _ (update (emit (ConsoleDebug _)))) (when _ (update (emit (ConsoleDebug _)))) =>
        apply related_log
    | |- related (console_debug _) (console_debug _) => apply related_console_debug
    | |- related (date_now _) (date_now _) => apply related_date_now
    | |- related (math_random _) (math_random _) => apply related_math_random
    | |- related (axios_get _ _ _ _) (axios_get _ _ _ _) => apply related_axios_get
    | |- related (axios_post _ _ _ _ _ _) (axios_post _ _ _ _ _ _) => apply related_axios_post
    | |- related (array_reverse _) (array_reverse _) => apply related_array_reverse
    | |- related (array_alloc _) (array_alloc _) => apply related_array_alloc
    | |- related (read _) (read _) => apply related_read; alike
    | |- related (update _) (update _) => apply related_update; alike
    | |- related (match ?x with _ => _ end) (match ?x with _ => _ end) => destruct x
    | IH : forall i d, related _ _ |- related (interact_loop _ _ _ _ _ _ _ _) _ => apply IH
    end).

Section Debug.

Variable md5 : string -> string.

Variable W : world.

Lemma related_updateCookiesIfNeeded :
  related (updateCookiesIfNeeded W) (updateCookiesIfNeeded W).
Proof. unfold updateCookiesIfNeeded. walk_both. Qed.

Lemma related_buildCookieHeader : related buildCookieHeader buildCookieHeader.
Proof. unfold buildCookieHeader. walk_both. Qed.

Lemma related_buildMainPayload (stimulus : string) (context : loc) (language : option string) :
  related (buildMainPayload md5 stimulus context language)
    (buildMainPayload md5 stimulus context language).
Proof. unfold buildMainPayload. cbv zeta. walk_both. Qed.

Lemma related_callCleverbotAPI (stimulus : string) (context : loc) (language : option string) :
  related (callCleverbotAPI md5 W stimulus context language)
    (callCleverbotAPI md5 W stimulus context language).
Proof.
  unfold callCleverbotAPI. cbv zeta.
  repeat first [ apply related_updateCookiesIfNeeded
               | apply related_buildCookieHeader
               | apply related_buildMainPayload
               | progress walk_both ].
Qed.

Lemma related_interact_loop (stimulus : string) (context : loc) (language : option string)
    (fuel : nat) :
  forall i d,
    related (interact_loop md5 W fuel i d stimulus context language)
      (interact_loop md5 W fuel i d stimulus context language).
Proof.
  induction fuel as [|fuel IH]; intros i d; cbn [interact_loop].
  - intros m1 m2 H. split; [reflexivity|exact H].
  - unfold random_below, sleep.
    repeat first [ apply related_callCleverbotAPI | progress walk_both ].
Qed.

(** X20.  The [debug] flag changes what is logged and nothing else: run on two
    machines that differ at most in the flag and in the debug lines
    already written, [interact] has the same outcome, makes the same
    requests with the same URLs, bodies and cookies, sleeps the same
    times, and leaves the same session, counters and arrays. *)
Theorem interact_debug_blind (stimulus : string) (context : option loc)
    (language : option string) (m1 m2 : machine) :
  same_but_debug m1 m2 ->
  fst (interact md5 W stimulus context language m1)
  = fst (interact md5 W stimulus context language m2)
  /\ same_but_debug (snd (interact md5 W stimulus context language m1))
       (snd (interact md5 W stimulus context language m2)).
Proof.
  revert m1 m2. change (related (interact md5 W stimulus context language)
                          (interact md5 W stimulus context language)).
  unfold interact.
  repeat first [ apply related_interact_loop | progress walk_both ].
Qed.

End Debug.

Lemma interact_debug_witness :
  fst (interact sample_md5 world_hello "hi" None None (initial []))
  = fst (interact sample_md5 world_hello "hi" None None
           (with_cfg (set_debug true) (initial []))).
Proof.
  refine (proj1 (interact_debug_blind sample_md5 world_hello "hi" None None
                   (initial []) (with_cfg (set_debug true) (initial [])) _)).
  repeat split.
Defined.
